(** * dmm_es51922: decoding packets of multimeters built on the Cyrustek ES51922

    A shallow embedding of [dmm_es51922.py] (the bit-template decoder
    [get_bits], the lookup tables, [parse], [output_readable],
    [format_field] and [output_csv]) and the properties of the packet
    decoder and of its two renderings proved over it.

    Python values are modelled as follows.
    - A packet is the list of its byte values ([list Z]); [struct.unpack]
      with the format ["B"*12] fails unless there are exactly twelve of them.
    - Dictionaries are finite maps ([gmap]); [d[k]] on a missing key raises
      [KeyError].
    - Exceptions are values of [exn]; a computation that may raise has type
      [res A].
    - [float] is IEEE binary64 ([PrimFloat.float]).
    - [decimal.Decimal] is a sign, a coefficient and an exponent. *)

From Stdlib Require Import ZArith NArith Bool List Lia.
From Stdlib Require Import PrimFloat Uint63.
From Stdlib Require Import Ascii DecimalString.
From stdpp Require Import gmap strings list fin_maps.

Set Warnings "-inexact-float".

Local Open Scope string_scope.
Local Open Scope Z_scope.

(** ** Exceptions and the error monad *)

(** The key of a failed dictionary lookup: the tables are keyed by byte
    values, the flag set by flag names. *)
Inductive pykey : Type :=
| KInt (n : Z)
| KStr (s : string).

(** The exception classes the decoder and the renderer can raise. *)
Inductive exn : Type :=
| StructError            (* struct.error: the buffer is not 12 bytes long *)
| KeyError (k : pykey)   (* dictionary lookup of a missing key *)
| IndexError             (* list index out of range *)
| TypeError              (* subscripting None, int ** str, float * str *)
| ValueError             (* raised by get_bits and by parse *)
| AttributeError.        (* attribute missing on an object *)

Inductive res (A : Type) : Type :=
| Return (a : A)
| Raise (e : exn).

Arguments Return {A} a.
Arguments Raise {A} e.

Definition bind {A B : Type} (m : res A) (k : A -> res B) : res B :=
  match m with
  | Return a => k a
  | Raise e => Raise e
  end.

Definition fmap_res {A B : Type} (f : A -> B) (m : res A) : res B :=
  bind m (fun a => Return (f a)).

Notation "'do' x <- m ; k" := (bind m (fun x => k))
  (at level 10, x name, m at level 100, k at level 200).
Notation "'do' ' p <- m ; k" := (bind m (fun x => let 'p := x in k))
  (at level 10, p pattern, m at level 100, k at level 200).

(** [for x in xs: s = body(s, x)], stopping at the first exception. *)
Fixpoint for_each {A S : Type} (xs : list A) (body : S -> A -> res S) (s : S)
  : res S :=
  match xs with
  | [] => Return s
  | x :: xs' => do s' <- body s x; for_each xs' body s'
  end.

(** [[f(x) for x in xs]], stopping at the first exception. *)
Fixpoint map_res {A B : Type} (f : A -> res B) (xs : list A) : res (list B) :=
  match xs with
  | [] => Return []
  | x :: xs' => do y <- f x; do ys <- map_res f xs'; Return (y :: ys)
  end.

(** [d[k]] on a dictionary keyed by flag names. *)
Definition getflag (d : gmap string bool) (k : string) : res bool :=
  match d !! k with
  | Some v => Return v
  | None => Raise (KeyError (KStr k))
  end.

(** [d[k]] on a dictionary keyed by byte values. *)
Definition getitem {V : Type} (d : gmap Z V) (k : Z) : res V :=
  match d !! k with
  | Some v => Return v
  | None => Raise (KeyError (KInt k))
  end.

(** ** Bit templates *)

(** [test_bit]: is the bit at [offset] one? *)
Definition test_bit (int_type : Z) (offset : Z) : bool :=
  let mask := Z.shiftl 1 offset in
  negb (Z.land int_type mask =? 0)%Z.

(** An element of a template: the literal 0 or 1 ([Lit false], [Lit true])
    or the name of a flag. *)
Inductive telem : Type :=
| Lit (b : bool)
| Name (s : string).

(** The body of the loop of [get_bits] at index [i]. *)
Definition get_bits_body (int_type : Z) (template : list telem)
    (bits : gmap string bool) (i : nat) : res (gmap string bool) :=
  let bit := test_bit int_type (Z.of_nat i) in
  match template !! (6 - i)%nat with
  | None => Raise IndexError
  | Some (Lit b) => if Bool.eqb bit b then Return bits else Raise ValueError
  | Some (Name bit_name) => Return (<[bit_name := bit]> bits)
  end.

Definition get_bits (int_type : Z) (template : list telem)
  : res (gmap string bool) :=
  for_each (seq 0 7) (get_bits_body int_type template) ∅.

Definition STATUS : list telem :=
  [Lit false; Lit true; Lit true;
   Name "Judge"; Name "Sign"; Name "BATT"; Name "OL"].

Definition OPTION1 : list telem :=
  [Lit false; Lit true; Lit true;
   Name "MAX"; Name "MIN"; Name "REL"; Name "RMR"].

Definition OPTION2 : list telem :=
  [Lit false; Lit true; Lit true;
   Name "UL"; Name "PMAX"; Name "PMIN"; Lit false].

Definition OPTION3 : list telem :=
  [Lit false; Lit true; Lit true;
   Name "DC"; Name "AC"; Name "AUTO"; Name "VAHZ"].

Definition OPTION4 : list telem :=
  [Lit false; Lit true; Lit true; Lit false;
   Name "VBAR"; Name "Hold"; Name "LPF"].

Example get_bits_status_48 :
  get_bits 48 STATUS
  = Return (<["Judge" := false]> (<["Sign" := false]>
           (<["BATT" := false]> (<["OL" := false]> ∅)))).
Proof. reflexivity. Qed.

(** ** The range, function and digit tables *)

(** The codes are written in decimal: the source's [0b0110000] is 48,
    [0b0110001] is 49, and so on up to [0b0111111], which is 63. *)

(** The value of a range table: a tuple [(scale, precision, unit)] or a
    descriptive label. *)
Inductive range_entry : Type :=
| Triple (scale : float) (precision : nat) (unit : string)
| Label (s : string).

Definition RANGE_VOLTAGE : gmap Z range_entry :=
  list_to_map
    [(48, Triple 1e0 4 "V");
     (49, Triple 1e0 3 "V");
     (50, Triple 1e0 2 "V");
     (51, Triple 1e0 1 "V");
     (52, Triple 1e-3 2 "mV")].

Definition RANGE_CURRENT_AUTO_UA : gmap Z range_entry :=
  list_to_map
    [(48, Triple 1e-6 2 "uA");
     (49, Triple 1e-6 1 "uA")].

Definition RANGE_CURRENT_AUTO_MA : gmap Z range_entry :=
  list_to_map
    [(48, Triple 1e-3 3 "mA");
     (49, Triple 1e-3 2 "mA")].

Definition RANGE_CURRENT_AUTO : gmap Z range_entry :=
  list_to_map
    [(48, Label "Lower Range (IVSL)");
     (49, Label "Higher Range (IVSH)")].

Definition RANGE_CURRENT_22A : gmap Z range_entry :=
  list_to_map [(48, Triple 1e0 3 "A")].

Definition RANGE_CURRENT_MANUAL : gmap Z range_entry :=
  list_to_map
    [(48, Triple 1e0 4 "A");
     (49, Triple 1e0 3 "A");
     (50, Triple 1e0 2 "A");
     (51, Triple 1e0 1 "A");
     (52, Triple 1e0 0 "A")].

Definition RANGE_ADP : gmap Z range_entry :=
  list_to_map
    [(48, Label "ADP4");
     (49, Label "ADP3");
     (50, Label "ADP2");
     (51, Label "ADP1");
     (52, Label "ADP0")].

Definition RANGE_RESISTANCE : gmap Z range_entry :=
  list_to_map
    [(48, Triple 1e0 2 "W");
     (49, Triple 1e3 4 "kW");
     (50, Triple 1e3 3 "kW");
     (51, Triple 1e3 2 "kW");
     (52, Triple 1e6 4 "MW");
     (53, Triple 1e6 3 "MW");
     (54, Triple 1e6 2 "MW")].

Definition RANGE_FREQUENCY : gmap Z range_entry :=
  list_to_map
    [(48, Triple 1e0 1 "Hz");
     (49, Triple 1e0 1 "Hz");
     (51, Triple 1e3 3 "kHz");
     (52, Triple 1e3 2 "kHz");
     (53, Triple 1e6 4 "MHz");
     (54, Triple 1e6 3 "MHz");
     (55, Triple 1e6 2 "MHz")].

Definition RANGE_CAPACITANCE : gmap Z range_entry :=
  list_to_map
    [(48, Triple 1e-9 3 "nF");
     (49, Triple 1e-9 2 "nF");
     (50, Triple 1e-6 4 "uF");
     (51, Triple 1e-6 3 "uF");
     (52, Triple 1e-6 2 "uF");
     (53, Triple 1e-3 4 "mF");
     (54, Triple 1e-3 3 "mF");
     (55, Triple 1e-3 2 "mF")].

Definition RANGE_DIODE : gmap Z range_entry :=
  list_to_map [(48, Triple 1e0 4 "V")].

Definition RANGE_CONTINUITY : gmap Z range_entry :=
  list_to_map [(48, Triple 1e0 2 "W")].

(** [(function, subfunction, unit)]; the subfunction of the temperature
    entry is [None]. *)
Definition FUNCTION : gmap Z (string * option (gmap Z range_entry) * string) :=
  list_to_map
    [(59, ("voltage", Some RANGE_VOLTAGE, "V"));
     (61, ("current", Some RANGE_CURRENT_AUTO_UA, "A"));
     (63, ("current", Some RANGE_CURRENT_AUTO_MA, "A"));
     (48, ("current", Some RANGE_CURRENT_22A, "A"));
     (57, ("current", Some RANGE_CURRENT_MANUAL, "A"));
     (51, ("resistance", Some RANGE_RESISTANCE, "W"));
     (53, ("continuity", Some RANGE_CONTINUITY, "W"));
     (49, ("diode", Some RANGE_DIODE, "V"));
     (50, ("frequency", Some RANGE_FREQUENCY, "Hz"));
     (54, ("capacitance", Some RANGE_CAPACITANCE, "F"));
     (52, ("temperature", None, "deg"));
     (62, ("ADP", Some RANGE_ADP, ""))].

Definition DIGITS : gmap Z Z :=
  list_to_map
    [(48, 0); (49, 1); (50, 2); (51, 3); (52, 4);
     (53, 5); (54, 6); (55, 7); (56, 8); (57, 9)].

Example FUNCTION_voltage :
  FUNCTION !! 59 = Some ("voltage", Some RANGE_VOLTAGE, "V").
Proof. reflexivity. Qed.

(** ** [decimal.Decimal] *)

(** A finite decimal number: [(-1)^d_sign * d_int * 10^d_exp]. *)
Record Decimal : Type := mkDecimal {
  d_sign : bool;
  d_int : N;
  d_exp : Z
}.

(** [Decimal(n)] for an integer [n]. *)
Definition Decimal_of_int (n : Z) : Decimal :=
  mkDecimal (n <? 0) (Z.abs_N n) 0.

(** The loop that ends an exact division: trailing zeros of the coefficient
    are traded for exponent while the exponent is below the ideal one. *)
Fixpoint reduce_exp (fuel : nat) (coeff : N) (exp ideal_exp : Z) : N * Z :=
  match fuel with
  | O => (coeff, exp)
  | S fuel' =>
      if (exp <? ideal_exp) && (coeff mod 10 =? 0)%N
      then reduce_exp fuel' (coeff / 10)%N (exp + 1) ideal_exp
      else (coeff, exp)
  end.

(** [d / 10**p] for a natural number [p]. The quotient is exact, so the
    library returns the representation of [d_int * 10^(d_exp - p)] whose
    exponent is closest to the ideal exponent [d_exp]; the context
    precision of 28 digits is never reached by a coefficient of at most
    five digits. *)
Definition Decimal_div_pow10 (d : Decimal) (p : nat) : Decimal :=
  let '(coeff, exp) :=
    reduce_exp p (d_int d) (d_exp d - Z.of_nat p) (d_exp d) in
  mkDecimal (d_sign d) coeff exp.

(** [d.quantize(e)]: [d] rescaled to the exponent of [e], rounding half to
    even when digits are dropped. *)
Definition quantize (d e : Decimal) : Decimal :=
  let target := d_exp e in
  if target <=? d_exp d
  then mkDecimal (d_sign d)
         (d_int d * 10 ^ Z.to_N (d_exp d - target))%N target
  else
    let unit_ := (10 ^ Z.to_N (target - d_exp d))%N in
    let q := (d_int d / unit_)%N in
    let r := (d_int d mod unit_)%N in
    let up :=
      match (2 * r ?= unit_)%N with
      | Lt => false
      | Eq => N.odd q
      | Gt => true
      end in
    mkDecimal (d_sign d) (if up then q + 1 else q)%N target.

(** The decimal digits of a natural number, ["0"] for zero. *)
Definition digits_of_N (n : N) : string :=
  NilZero.string_of_uint (N.to_uint n).

Fixpoint zeros (k : nat) : string :=
  match k with
  | O => ""
  | S k' => "0" +:+ zeros k'
  end.

(** ["%+d" % n] *)
Definition signed_digits (n : Z) : string :=
  (if n <? 0 then "-" else "+") +:+ digits_of_N (Z.abs_N n).

(** [str(d)]: plain notation when the exponent is at most 0 and the number
    has more than -6 digits left of the point, scientific otherwise. *)
Definition str_Decimal (d : Decimal) : string :=
  let sign := if d_sign d then "-" else "" in
  let int_ := digits_of_N (d_int d) in
  let len := Z.of_nat (String.length int_) in
  let leftdigits := d_exp d + len in
  let dotplace :=
    if (d_exp d <=? 0) && (-6 <? leftdigits) then leftdigits else 1 in
  let '(intpart, fracpart) :=
    if dotplace <=? 0
    then ("0", "." +:+ zeros (Z.to_nat (- dotplace)) +:+ int_)
    else if len <=? dotplace
    then (int_ +:+ zeros (Z.to_nat (dotplace - len)), "")
    else (String.substring 0 (Z.to_nat dotplace) int_,
          "." +:+ String.substring (Z.to_nat dotplace)
                    (Z.to_nat (len - dotplace)) int_) in
  let exp :=
    if leftdigits =? dotplace then ""
    else "E" +:+ signed_digits (leftdigits - dotplace) in
  sign +:+ intpart +:+ fracpart +:+ exp.

(** The binary64 value of a natural number below [2^63] (exact below
    [2^53]). *)
Definition float_of_N (n : N) : float :=
  PrimFloat.of_uint63 (Uint63.of_Z (Z.of_N n)).

(** [float(d)]: the binary64 number nearest to [d]. The coefficient and the
    power of ten are represented exactly (coefficients stay below [2^53]
    and exponents within 22 of zero), so the IEEE quotient is the correctly
    rounded value. *)
Definition float_of_Decimal (d : Decimal) : float :=
  let m :=
    if 0 <=? d_exp d
    then float_of_N (d_int d * 10 ^ Z.to_N (d_exp d))%N
    else PrimFloat.div (float_of_N (d_int d))
           (float_of_N (10 ^ Z.to_N (- d_exp d))%N) in
  if d_sign d then PrimFloat.opp m else m.

Example str_Decimal_22000 : str_Decimal (mkDecimal false 22000 (-4)) = "2.2000".
Proof. reflexivity. Qed.

Example str_Decimal_neg5 : str_Decimal (mkDecimal true 5 (-4)) = "-0.0005".
Proof. reflexivity. Qed.

Example str_Decimal_zero : str_Decimal (mkDecimal false 0 (-2)) = "0.00".
Proof. reflexivity. Qed.

Example str_Decimal_int : str_Decimal (mkDecimal false 22000 0) = "22000".
Proof. reflexivity. Qed.

Example str_Decimal_sci : str_Decimal (mkDecimal false 12 (-9)) = "1.2E-8".
Proof. reflexivity. Qed.

Example float_of_Decimal_22000 :
  float_of_Decimal (mkDecimal false 22000 (-4)) = 2.2%float.
Proof. reflexivity. Qed.

(** ** The decoder *)

(** A numeric field of the result: a number, or the empty string that
    [parse] stores when the measurement is not normal. *)
Inductive num_field (A : Type) : Type :=
| Num (a : A)
| Blank.

Arguments Num {A} a.
Arguments Blank {A}.

(** The dictionary [parse] returns, one field per key. *)
Record Reading : Type := mkReading {
  r_value : num_field float;
  r_unit : string;
  r_display_value : num_field Decimal;
  r_display_unit : string;
  r_mode : string;
  r_current : option string;
  r_peak : option string;
  r_relative : bool;
  r_hold : bool;
  r_operation : string;
  r_battery_low : bool
}.

(** [a and b] and [a or b], the right operand evaluated only when needed. *)
Definition and_then (a b : res bool) : res bool :=
  do x <- a; if x then b else Return false.

Definition or_else (a b : res bool) : res bool :=
  do x <- a; if x then Return true else b.

(** [t[k]] where [t] may be [None]. *)
Definition subscript {V : Type} (t : option (gmap Z V)) (k : Z) : res V :=
  match t with
  | None => Raise TypeError
  | Some d => getitem d k
  end.

(** Lines 229-231: mode, range entry and unit of the function and range
    bytes. *)
Definition resolve (d_function d_range : Z)
  : res (string * range_entry * string) :=
  do mode <- (do f <- getitem FUNCTION d_function; Return f.1.1);
  do m_range <- (do f <- getitem FUNCTION d_function; subscript f.1.2 d_range);
  do unit_ <- (do f <- getitem FUNCTION d_function; Return f.2);
  Return (mode, m_range, unit_).

(** Lines 233-238: the flags of the five flag bytes, merged. *)
Definition decode_options (d_options : list Z) : res (gmap string bool) :=
  let OPTIONS := [STATUS; OPTION1; OPTION2; OPTION3; OPTION4] in
  for_each (zip d_options OPTIONS)
    (fun options '(d_option, OPTION) =>
       do bits <- get_bits d_option OPTION;
       Return (bits ∪ options))
    ∅.

(** Lines 240-246. *)
Definition current_of (options : gmap string bool) : res (option string) :=
  do both <- and_then (getflag options "AC") (getflag options "DC");
  if both then Raise ValueError
  else
    do dc <- getflag options "DC";
    if dc then Return (Some "AC")
    else
      do ac <- getflag options "AC";
      if ac then Return (Some "DC") else Return None.

(** Lines 248-254. *)
Definition operation_of (options : gmap string bool) : res string :=
  do ul <- getflag options "UL";
  if ul then Return "underload"
  else
    do ol <- getflag options "OL";
    if ol then Return "overload" else Return "normal".

(** Lines 278-282. *)
Definition peak_of (options : gmap string bool) : res (option string) :=
  do mx <- getflag options "MAX";
  if mx then Return (Some "max")
  else
    do mn <- getflag options "MIN";
    if mn then Return (Some "min") else Return None.

(** Lines 284-291: two branches that do nothing; only their conditions are
    evaluated. *)
Definition current_range_note (options : gmap string bool) (mode : string)
  : res bool :=
  do c <- and_then (Return (String.eqb mode "current")) (getflag options "VBAR");
  if c then Return true
  else and_then (Return (String.eqb mode "current"))
         (fmap_res negb (getflag options "VBAR")).

(** Lines 293-305: the frequency, duty-cycle and temperature overrides. *)
Definition override (options : gmap string bool) (mode : string)
    (m_range : range_entry) (unit_ : string)
  : res (string * range_entry * string) :=
  do '(mode, m_range, unit_) <- (
    do c <- and_then (getflag options "VAHZ")
              (fmap_res negb (getflag options "Judge"));
    if c then Return ("frequency", Triple 1e0 1 "Hz", "Hz")
    else
      do c' <- and_then
             (or_else (getflag options "VAHZ")
                (Return (String.eqb mode "frequency")))
             (getflag options "Judge");
      if c' then Return ("duty_cycle", Triple 1e0 1 "%", "%")
      else Return (mode, m_range, unit_));
  do m_range <- (
    do c <- and_then (Return (String.eqb mode "temperature"))
          (getflag options "VBAR");
    if c then Return (Triple 1e0 1 "deg")
    else
      do c' <- and_then (Return (String.eqb mode "temperature"))
             (fmap_res negb (getflag options "VBAR"));
      if c' then Return (Triple 1e0 2 "deg") else Return m_range);
  Return (mode, m_range, unit_).

(** Lines 310-312: the five numerals read as one integer. *)
Definition magnitude (digits : list Z) : Z :=
  fold_left (fun display_value '(i, digit) => display_value + digit * 10 ^ (4 - i))
    (zip (seqZ 0 5) digits) 0.

(** Lines 307-321: the display value, the display unit and the value. With
    a label for [m_range], [m_range[1]] is a character and [10**m_range[1]]
    raises [TypeError]. *)
Definition assemble (options : gmap string bool) (d_digits : list Z)
    (m_range : range_entry) : res (Decimal * string * float) :=
  do digits <- map_res (getitem DIGITS) d_digits;
  let display_value := magnitude digits in
  do sign <- getflag options "Sign";
  let display_value := if sign then display_value * -1 else display_value in
  match m_range with
  | Label s =>
      match String.get 1 s with
      | None => Raise IndexError
      | Some _ => Raise TypeError
      end
  | Triple scale precision unit_ =>
      let display_value :=
        Decimal_div_pow10 (Decimal_of_int display_value) precision in
      let display_value :=
        quantize display_value
          (Decimal_div_pow10 (Decimal_of_int 1) precision) in
      let display_unit := unit_ in
      let value := PrimFloat.mul (float_of_Decimal display_value) scale in
      Return (display_value, display_unit, value)
  end.

Definition parse (packet : list Z) : res Reading :=
  match packet with
  | [d_range; d_digit4; d_digit3; d_digit2; d_digit1; d_digit0;
     d_function; d_status; d_option1; d_option2; d_option3; d_option4] =>
      do '(mode, m_range, unit_) <- resolve d_function d_range;
      do options <-
        decode_options [d_status; d_option1; d_option2; d_option3; d_option4];
      do current <- current_of options;
      do operation <- operation_of options;
      do mrange <- (do auto <- getflag options "AUTO";
                Return (if auto then "auto" else "manual"));
      do battery_low <- getflag options "BATT";
      do relative <- getflag options "REL";
      do hold <- getflag options "Hold";
      do peak <- peak_of options;
      do _ <- current_range_note options mode;
      do '(mode, m_range, unit_) <- override options mode m_range unit_;
      do '(display_value, display_unit, value) <-
        assemble options [d_digit4; d_digit3; d_digit2; d_digit1; d_digit0]
          m_range;
      let '(display_value, value) :=
        if negb (String.eqb operation "normal") then (Blank, Blank)
        else (Num display_value, Num value) in
      Return (mkReading value unit_ display_value display_unit mode current
              peak relative hold operation battery_low)
  | _ => Raise StructError
  end.

(** ** The readable rendering *)

(** ["{value}".format(value=v)] of the display value. *)
Definition format_display (v : num_field Decimal) : string :=
  match v with
  | Num d => str_Decimal d
  | Blank => ""
  end.

(** [output_readable]. A [str] has no [append], so the battery notice raises
    [AttributeError]. *)
Definition output_readable (results : Reading) : res string :=
  let operation := r_operation results in
  let battery_low := r_battery_low results in
  let line :=
    if String.eqb operation "normal"
    then
      let display_value := r_display_value results in
      let display_unit := r_display_unit results in
      format_display display_value +:+ " " +:+ display_unit
    else "-, the measurement is " +:+ operation +:+ "ed!" in
  do line <- (if battery_low then Raise AttributeError else Return line);
  Return line.

(** A voltage packet in the 2.2000 V range: digits 2,2,0,0,0, every flag
    clear. *)
Definition voltage_packet : list Z :=
  [48; 50; 50; 48; 48; 48; 59; 48; 48; 48; 48; 48].

(** A temperature packet: digits 0,0,2,5,0, every flag clear. *)
Definition temperature_packet : list Z :=
  [48; 48; 48; 50; 53; 48; 52; 48; 48; 48; 48; 48].

Example parse_voltage_packet :
  parse voltage_packet
  = Return (mkReading (Num 2.2%float) "V" (Num (mkDecimal false 22000 (-4)))
              "V" "voltage" None None false false "normal" false).
Proof. reflexivity. Qed.

(** ** The delimited rendering *)

(** A value of the result dictionary as [format_field] meets it. *)
Inductive pyval : Type :=
| PyNone
| PyBool (b : bool)
| PyStr (s : string)
| PyFloat (f : float)
| PyDecimal (d : Decimal).

Definition py_option (o : option string) : pyval :=
  match o with
  | Some s => PyStr s
  | None => PyNone
  end.

(** [results[key]]. *)
Definition getresult (results : Reading) (key : string) : res pyval :=
  if String.eqb key "value"
  then Return (match r_value results with
               | Num f => PyFloat f
               | Blank => PyStr ""
               end)
  else if String.eqb key "unit" then Return (PyStr (r_unit results))
  else if String.eqb key "display_value"
  then Return (match r_display_value results with
               | Num d => PyDecimal d
               | Blank => PyStr ""
               end)
  else if String.eqb key "display_unit"
  then Return (PyStr (r_display_unit results))
  else if String.eqb key "mode" then Return (PyStr (r_mode results))
  else if String.eqb key "current"
  then Return (py_option (r_current results))
  else if String.eqb key "peak" then Return (py_option (r_peak results))
  else if String.eqb key "relative"
  then Return (PyBool (r_relative results))
  else if String.eqb key "hold" then Return (PyBool (r_hold results))
  else if String.eqb key "operation"
  then Return (PyStr (r_operation results))
  else if String.eqb key "battery_low"
  then Return (PyBool (r_battery_low results))
  else Raise (KeyError (KStr key)).

(** [d == n] for a decimal number and an integer: the numbers are
    compared, not the representations. *)
Definition Decimal_eq_int (d : Decimal) (n : Z) : bool :=
  let c := if d_sign d then - Z.of_N (d_int d) else Z.of_N (d_int d) in
  if 0 <=? d_exp d then c * 10 ^ d_exp d =? n
  else c =? n * 10 ^ (- d_exp d).

(** [value == None]. *)
Definition py_is_none (value : pyval) : bool :=
  match value with
  | PyNone => true
  | _ => false
  end.

(** [value == True] and [value == False]: a bool is the integer 1 or 0, so
    numbers compare equal to it by value; strings and [None] never do. *)
Definition py_eq_bool (value : pyval) (b : bool) : bool :=
  match value with
  | PyNone => false
  | PyBool x => Bool.eqb x b
  | PyStr _ => false
  | PyFloat f => PrimFloat.eqb f (if b then 1%float else 0%float)
  | PyDecimal d => Decimal_eq_int d (if b then 1 else 0)
  end.

(** [value == s] for a string [s]. *)
Definition py_eq_str (value : pyval) (s : string) : bool :=
  match value with
  | PyStr x => String.eqb x s
  | _ => false
  end.

Definition CSV_FIELDS : list string :=
  ["value"; "unit"; "mode"; "current"; "operation"; "peak";
   "battery_low"; "relative"; "hold"].

Section Csv.
(** [str] of a float is left to the interpreter. *)
Variable str_float : float -> string.

(** [str(value)]. *)
Definition py_str (value : pyval) : string :=
  match value with
  | PyNone => "None"
  | PyBool b => if b then "True" else "False"
  | PyStr s => s
  | PyFloat f => str_float f
  | PyDecimal d => str_Decimal d
  end.

Definition format_field (results : Reading) (field_name : string)
  : res string :=
  do value <- getresult results field_name;
  if String.eqb field_name "value"
  then
    do operation <- getresult results "operation";
    if py_eq_str operation "normal" then Return (py_str value)
    else Return ""
  else if py_is_none value then Return ""
  else if py_eq_bool value true then Return "1"
  else if py_eq_bool value false then Return "0"
  else Return (py_str value).

Definition output_csv (results : Reading) : res string :=
  do field_data <- map_res (format_field results) CSV_FIELDS;
  let line := String.concat ";" field_data in
  Return line.
End Csv.

(** The number of occurrences of a character in a string. *)
Fixpoint count_char (c : Ascii.ascii) (s : string) : nat :=
  match s with
  | EmptyString => 0
  | String c' s' => (if Ascii.eqb c c' then 1 else 0) + count_char c s'
  end.

(** ** Vocabulary of the statements *)

(** The flag names of a template, in template order. *)
Definition names (template : list telem) : list string :=
  flat_map (fun t => match t with Name s => [s] | Lit _ => [] end) template.

Definition all_names : list string :=
  names STATUS ++ names OPTION1 ++ names OPTION2 ++ names OPTION3
  ++ names OPTION4.

(** The flags [parse] looks up after the flag bytes are decoded. *)
Definition looked_up : list string :=
  ["AC"; "DC"; "UL"; "OL"; "AUTO"; "BATT"; "REL"; "Hold"; "MAX"; "MIN";
   "VBAR"; "VAHZ"; "Judge"; "Sign"].

(** The mapping [m] binds exactly the named positions of [template], each
    to the bit of [b] at that position. *)
Definition binds_named (b : Z) (template : list telem)
    (m : gmap string bool) : Prop :=
  dom m = list_to_set (names template)
  /\ forall (i : nat) (s : string),
       (i <= 6)%nat ->
       template !! (6 - i)%nat = Some (Name s) ->
       m !! s = Some (test_bit b (Z.of_nat i)).

(** The flag names a run of [get_bits] over the indices [idx] binds. *)
Definition names_at (template : list telem) (idx : list nat) : list string :=
  flat_map
    (fun i => match template !! (6 - i)%nat with
              | Some (Name s) => [s]
              | _ => []
              end)
    idx.

(** The text of the value column. *)
Definition value_column (str_float : float -> string) (results : Reading)
  : string :=
  if String.eqb (r_operation results) "normal"
  then match r_value results with
       | Num v => str_float v
       | Blank => ""
       end
  else "".

Definition option_column (o : option string) : string :=
  match o with
  | Some s => s
  | None => ""
  end.

Definition bool_column (b : bool) : string := if b then "1" else "0".

(** The fixed bits of the five flag bytes are the expected ones. *)
Definition templates_ok (st o1 o2 o3 o4 : Z) : bool :=
  (negb (test_bit st 6) && test_bit st 5 && test_bit st 4)
  && (negb (test_bit o1 6) && test_bit o1 5 && test_bit o1 4)
  && (negb (test_bit o2 6) && test_bit o2 5 && test_bit o2 4
      && negb (test_bit o2 0))
  && (negb (test_bit o3 6) && test_bit o3 5 && test_bit o3 4)
  && (negb (test_bit o4 6) && test_bit o4 5 && test_bit o4 4
      && negb (test_bit o4 3)).

(** A flag set given by the value of each of the eighteen flags. *)
Definition flag_map
    (j s bt ol mx mn rl rm ul pmx pmn dc ac au vz vb hd lp : bool)
  : gmap string bool :=
  list_to_map
    [("Judge", j); ("Sign", s); ("BATT", bt); ("OL", ol);
     ("MAX", mx); ("MIN", mn); ("REL", rl); ("RMR", rm);
     ("UL", ul); ("PMAX", pmx); ("PMIN", pmn);
     ("DC", dc); ("AC", ac); ("AUTO", au); ("VAHZ", vz);
     ("VBAR", vb); ("Hold", hd); ("LPF", lp)].

(** The merged flag set of five flag bytes, bit by bit. *)
Definition options_of (st o1 o2 o3 o4 : Z) : gmap string bool :=
  flag_map
    (test_bit st 3) (test_bit st 2) (test_bit st 1) (test_bit st 0)
    (test_bit o1 3) (test_bit o1 2) (test_bit o1 1) (test_bit o1 0)
    (test_bit o2 3) (test_bit o2 2) (test_bit o2 1)
    (test_bit o3 3) (test_bit o3 2) (test_bit o3 1) (test_bit o3 0)
    (test_bit o4 2) (test_bit o4 1) (test_bit o4 0).

(** The integer a decimal number stands for when its exponent is removed:
    the number is [signed_coeff d * 10^(d_exp d)]. *)
Definition signed_coeff (d : Decimal) : Z :=
  if d_sign d then - Z.of_N (d_int d) else Z.of_N (d_int d).

(** * Properties *)

(** ** The error monad *)

Lemma bind_Return_inv {A B : Type} (m : res A) (k : A -> res B) (b : B) :
  bind m k = Return b -> exists a, m = Return a /\ k a = Return b.
Proof. destruct m as [a|e]; simpl; [eauto | discriminate]. Qed.

Lemma bind_Raise_l {A B : Type} (k : A -> res B) (e : exn) :
  bind (Raise e) k = Raise e.
Proof. reflexivity. Qed.

Lemma getflag_Some (d : gmap string bool) (k : string) (v : bool) :
  d !! k = Some v -> getflag d k = Return v.
Proof. unfold getflag. intros ->. reflexivity. Qed.

Lemma getflag_Return_inv (d : gmap string bool) (k : string) (v : bool) :
  getflag d k = Return v -> d !! k = Some v.
Proof. unfold getflag. destruct (d !! k); congruence. Qed.

(** ** Bits *)

Lemma test_bit_testbit (b i : Z) : 0 <= i -> test_bit b i = Z.testbit b i.
Proof.
  intros Hi. unfold test_bit.
  rewrite Z.shiftl_1_l, Z.land_comm.
  change (2 ^ i) with (Z.pow 2 i).
  destruct (Z.testbit b i) eqn:Hb.
  - apply negb_true_iff, Z.eqb_neq. intros H0.
    assert (Ht : Z.testbit (Z.land (2 ^ i) b) i = false)
      by (rewrite H0; apply Z.bits_0).
    rewrite Z.land_spec, Z.pow2_bits_true, Hb in Ht by lia. discriminate.
  - apply negb_false_iff, Z.eqb_eq. apply Z.bits_inj'. intros n Hn.
    rewrite Z.land_spec, Z.bits_0.
    destruct (Z.eq_dec n i) as [->|Hne].
    + rewrite Hb. apply andb_false_r.
    + rewrite Z.pow2_bits_false by lia. reflexivity.
Qed.

(** Only the low seven bits of a byte are tested by [get_bits]. *)
Lemma test_bit_low7 (a b i : Z) :
  0 <= i < 7 -> Z.land a 127 = Z.land b 127 -> test_bit a i = test_bit b i.
Proof.
  intros Hi Hab. rewrite !test_bit_testbit by lia.
  assert (Hm : Z.testbit 127 i = true).
  { assert (Hc : i = 0 \/ i = 1 \/ i = 2 \/ i = 3 \/ i = 4 \/ i = 5 \/ i = 6)
      by lia.
    destruct Hc as [->|[->|[->|[->|[->|[->| ->]]]]]]; reflexivity. }
  transitivity (Z.testbit (Z.land a 127) i).
  - rewrite Z.land_spec, Hm. symmetry. apply andb_true_r.
  - rewrite Hab, Z.land_spec, Hm. apply andb_true_r.
Qed.

Lemma test_bit_lor (a m i : Z) :
  0 <= i -> test_bit (Z.lor a m) i = test_bit a i || Z.testbit m i.
Proof.
  intros Hi. rewrite !test_bit_testbit by lia. apply Z.lor_spec.
Qed.

(** ** The flag decoder *)

Ltac of_nat_literals :=
  repeat match goal with
  | |- context [Z.of_nat ?n] =>
      let v := eval vm_compute in (Z.of_nat n) in
      change (Z.of_nat n) with v
  end.

Ltac run_get_bits :=
  unfold get_bits; cbn [seq for_each];
  unfold get_bits_body;
  cbn [lookup list_lookup Nat.sub bind];
  of_nat_literals.

Lemma get_bits_STATUS (b : Z) :
  get_bits b STATUS =
  if negb (test_bit b 6) && test_bit b 5 && test_bit b 4
  then Return (<["Judge" := test_bit b 3]> (<["Sign" := test_bit b 2]>
              (<["BATT" := test_bit b 1]> (<["OL" := test_bit b 0]> ∅))))
  else Raise ValueError.
Proof.
  unfold STATUS. run_get_bits.
  destruct (test_bit b 4), (test_bit b 5), (test_bit b 6); reflexivity.
Qed.

Lemma get_bits_OPTION1 (b : Z) :
  get_bits b OPTION1 =
  if negb (test_bit b 6) && test_bit b 5 && test_bit b 4
  then Return (<["MAX" := test_bit b 3]> (<["MIN" := test_bit b 2]>
              (<["REL" := test_bit b 1]> (<["RMR" := test_bit b 0]> ∅))))
  else Raise ValueError.
Proof.
  unfold OPTION1. run_get_bits.
  destruct (test_bit b 4), (test_bit b 5), (test_bit b 6); reflexivity.
Qed.

Lemma get_bits_OPTION2 (b : Z) :
  get_bits b OPTION2 =
  if negb (test_bit b 6) && test_bit b 5 && test_bit b 4
     && negb (test_bit b 0)
  then Return (<["UL" := test_bit b 3]> (<["PMAX" := test_bit b 2]>
              (<["PMIN" := test_bit b 1]> ∅)))
  else Raise ValueError.
Proof.
  unfold OPTION2. run_get_bits.
  destruct (test_bit b 0), (test_bit b 4), (test_bit b 5), (test_bit b 6);
    reflexivity.
Qed.

Lemma get_bits_OPTION3 (b : Z) :
  get_bits b OPTION3 =
  if negb (test_bit b 6) && test_bit b 5 && test_bit b 4
  then Return (<["DC" := test_bit b 3]> (<["AC" := test_bit b 2]>
              (<["AUTO" := test_bit b 1]> (<["VAHZ" := test_bit b 0]> ∅))))
  else Raise ValueError.
Proof.
  unfold OPTION3. run_get_bits.
  destruct (test_bit b 4), (test_bit b 5), (test_bit b 6); reflexivity.
Qed.

Lemma get_bits_OPTION4 (b : Z) :
  get_bits b OPTION4 =
  if negb (test_bit b 6) && test_bit b 5 && test_bit b 4
     && negb (test_bit b 3)
  then Return (<["VBAR" := test_bit b 2]> (<["Hold" := test_bit b 1]>
              (<["LPF" := test_bit b 0]> ∅)))
  else Raise ValueError.
Proof.
  unfold OPTION4. run_get_bits.
  destruct (test_bit b 3), (test_bit b 4), (test_bit b 5), (test_bit b 6);
    reflexivity.
Qed.

(** The union built by the loop is the bit-by-bit flag set. *)
Lemma merged_options (j s bt ol mx mn rl rm ul pmx pmn dc ac au vz vb hd lp : bool) :
  (<["VBAR" := vb]> (<["Hold" := hd]> (<["LPF" := lp]> ∅)))
  ∪ ((<["DC" := dc]> (<["AC" := ac]> (<["AUTO" := au]> (<["VAHZ" := vz]> ∅))))
  ∪ ((<["UL" := ul]> (<["PMAX" := pmx]> (<["PMIN" := pmn]> ∅)))
  ∪ ((<["MAX" := mx]> (<["MIN" := mn]> (<["REL" := rl]> (<["RMR" := rm]> ∅))))
  ∪ ((<["Judge" := j]> (<["Sign" := s]> (<["BATT" := bt]> (<["OL" := ol]> ∅))))
  ∪ ∅))))
  = flag_map j s bt ol mx mn rl rm ul pmx pmn dc ac au vz vb hd lp.
Proof. reflexivity. Qed.

Lemma decode_options_eq (st o1 o2 o3 o4 : Z) :
  decode_options [st; o1; o2; o3; o4] =
  if templates_ok st o1 o2 o3 o4
  then Return (options_of st o1 o2 o3 o4)
  else Raise ValueError.
Proof.
  unfold decode_options, templates_ok, options_of. cbn [zip zip_with for_each].
  rewrite get_bits_STATUS, get_bits_OPTION1, get_bits_OPTION2,
    get_bits_OPTION3, get_bits_OPTION4.
  destruct (negb (test_bit st 6) && test_bit st 5 && test_bit st 4);
    [|reflexivity].
  destruct (negb (test_bit o1 6) && test_bit o1 5 && test_bit o1 4);
    [|reflexivity].
  destruct (negb (test_bit o2 6) && test_bit o2 5 && test_bit o2 4
            && negb (test_bit o2 0)); [|reflexivity].
  destruct (negb (test_bit o3 6) && test_bit o3 5 && test_bit o3 4);
    [|reflexivity].
  destruct (negb (test_bit o4 6) && test_bit o4 5 && test_bit o4 4
            && negb (test_bit o4 3)); [|reflexivity].
  cbn [bind andb]. rewrite merged_options. reflexivity.
Qed.

(** ** Lookups in the merged flag set *)

Section FlagMap.
Variables j s bt ol mx mn rl rm ul pmx pmn dc ac au vz vb hd lp : bool.

Let fm := flag_map j s bt ol mx mn rl rm ul pmx pmn dc ac au vz vb hd lp.

Lemma getflag_Judge : getflag fm "Judge" = Return j.
Proof. reflexivity. Qed.

Lemma getflag_Sign : getflag fm "Sign" = Return s.
Proof. reflexivity. Qed.

Lemma getflag_BATT : getflag fm "BATT" = Return bt.
Proof. reflexivity. Qed.

Lemma getflag_OL : getflag fm "OL" = Return ol.
Proof. reflexivity. Qed.

Lemma getflag_MAX : getflag fm "MAX" = Return mx.
Proof. reflexivity. Qed.

Lemma getflag_MIN : getflag fm "MIN" = Return mn.
Proof. reflexivity. Qed.

Lemma getflag_REL : getflag fm "REL" = Return rl.
Proof. reflexivity. Qed.

Lemma getflag_RMR : getflag fm "RMR" = Return rm.
Proof. reflexivity. Qed.

Lemma getflag_UL : getflag fm "UL" = Return ul.
Proof. reflexivity. Qed.

Lemma getflag_PMAX : getflag fm "PMAX" = Return pmx.
Proof. reflexivity. Qed.

Lemma getflag_PMIN : getflag fm "PMIN" = Return pmn.
Proof. reflexivity. Qed.

Lemma getflag_DC : getflag fm "DC" = Return dc.
Proof. reflexivity. Qed.

Lemma getflag_AC : getflag fm "AC" = Return ac.
Proof. reflexivity. Qed.

Lemma getflag_AUTO : getflag fm "AUTO" = Return au.
Proof. reflexivity. Qed.

Lemma getflag_VAHZ : getflag fm "VAHZ" = Return vz.
Proof. reflexivity. Qed.

Lemma getflag_VBAR : getflag fm "VBAR" = Return vb.
Proof. reflexivity. Qed.

Lemma getflag_Hold : getflag fm "Hold" = Return hd.
Proof. reflexivity. Qed.

Lemma getflag_LPF : getflag fm "LPF" = Return lp.
Proof. reflexivity. Qed.

Lemma dom_flag_map : dom fm = list_to_set all_names.
Proof. reflexivity. Qed.

Lemma current_of_flag_map :
  current_of fm =
  if ac && dc then Raise ValueError
  else Return (if dc then Some "AC" else if ac then Some "DC" else None).
Proof.
  unfold current_of, and_then. rewrite !getflag_AC, !getflag_DC.
  destruct ac, dc; reflexivity.
Qed.

Lemma operation_of_flag_map :
  operation_of fm =
  Return (if ul then "underload" else if ol then "overload" else "normal").
Proof.
  unfold operation_of. rewrite getflag_UL, getflag_OL.
  destruct ul, ol; reflexivity.
Qed.

Lemma peak_of_flag_map :
  peak_of fm =
  Return (if mx then Some "max" else if mn then Some "min" else None).
Proof.
  unfold peak_of. rewrite getflag_MAX, getflag_MIN.
  destruct mx, mn; reflexivity.
Qed.

Lemma current_range_note_flag_map (mode : string) :
  exists b, current_range_note fm mode = Return b.
Proof.
  unfold current_range_note, and_then, fmap_res. rewrite !getflag_VBAR.
  destruct (String.eqb mode "current"), vb; simpl; eauto.
Qed.

(** The overrides as a function of the three flags they read. *)
Lemma override_flag_map (mode : string) (m_range : range_entry)
    (unit_ : string) :
  override fm mode m_range unit_ =
  Return
    (if vz && negb j then ("frequency", Triple 1e0 1 "Hz", "Hz")
     else if (vz || String.eqb mode "frequency") && j
     then ("duty_cycle", Triple 1e0 1 "%", "%")
     else if String.eqb mode "temperature"
     then (mode, Triple 1e0 (if vb then 1%nat else 2%nat) "deg", unit_)
     else (mode, m_range, unit_)).
Proof.
  unfold override, and_then, or_else, fmap_res.
  rewrite !getflag_VAHZ, !getflag_Judge, !getflag_VBAR.
  destruct vz, j; cbn [bind negb andb orb String.eqb Ascii.eqb Bool.eqb].
  - destruct vb; reflexivity.
  - destruct vb; reflexivity.
  - destruct (String.eqb mode "frequency"); cbn [bind andb];
      [destruct vb; reflexivity|].
    destruct (String.eqb mode "temperature"), vb; reflexivity.
  - destruct (String.eqb mode "frequency"); cbn [bind andb];
      destruct (String.eqb mode "temperature"), vb; reflexivity.
Qed.
End FlagMap.

Create Rewrite HintDb flags.

#[global] Hint Rewrite getflag_Judge getflag_Sign getflag_BATT getflag_OL getflag_MAX getflag_MIN getflag_REL getflag_RMR getflag_UL getflag_PMAX getflag_PMIN getflag_DC getflag_AC getflag_AUTO getflag_VAHZ getflag_VBAR getflag_Hold getflag_LPF : flags.

(** ** Decimal arithmetic *)

(** Trading zeros for exponent keeps the number and never lowers the
    exponent. *)
Lemma reduce_exp_spec (fuel : nat) (coeff : N) (exp ideal_exp : Z) :
  let '(c, e) := reduce_exp fuel coeff exp ideal_exp in
  (c * 10 ^ Z.to_N (e - exp))%N = coeff /\ exp <= e.
Proof.
  revert coeff exp. induction fuel as [|fuel IH]; intros coeff exp; simpl.
  - rewrite Z.sub_diag. simpl. split; [lia|lia].
  - destruct ((exp <? ideal_exp) && (coeff mod 10 =? 0)%N) eqn:Hc.
    + apply andb_true_iff in Hc as [_ Hm]. apply N.eqb_eq in Hm.
      specialize (IH (coeff / 10)%N (exp + 1)).
      destruct (reduce_exp fuel (coeff / 10)%N (exp + 1) ideal_exp) as [c e].
      destruct IH as [Hv He]. split; [|lia].
      replace (Z.to_N (e - exp)) with (N.succ (Z.to_N (e - (exp + 1)))) by lia.
      rewrite N.pow_succ_r', (N.mul_comm 10), N.mul_assoc, Hv.
      pose proof (N.div_mod coeff 10 ltac:(lia)) as Hd.
      rewrite Hm in Hd. lia.
    + rewrite Z.sub_diag. simpl. split; lia.
Qed.

Lemma Decimal_div_pow10_one (p : nat) :
  Decimal_div_pow10 (Decimal_of_int 1) p = mkDecimal false 1 (- Z.of_nat p).
Proof.
  unfold Decimal_div_pow10, Decimal_of_int. cbn [d_int d_exp d_sign Z.abs_N].
  destruct p as [|p]; [reflexivity|].
  cbn [reduce_exp].
  replace ((Z.abs_N 1 mod 10 =? 0)%N) with false by reflexivity.
  rewrite andb_false_r. reflexivity.
Qed.

(** Dividing an integer by [10^p] and quantizing to [p] places keeps the
    integer as coefficient: the quotient is exact. *)
Lemma div_quantize_exact (n : Z) (p : nat) :
  quantize (Decimal_div_pow10 (Decimal_of_int n) p)
    (Decimal_div_pow10 (Decimal_of_int 1) p)
  = mkDecimal (n <? 0) (Z.abs_N n) (- Z.of_nat p).
Proof.
  rewrite Decimal_div_pow10_one.
  unfold Decimal_div_pow10, Decimal_of_int. cbn [d_int d_exp d_sign].
  pose proof (reduce_exp_spec p (Z.abs_N n) (0 - Z.of_nat p) 0) as Hr.
  destruct (reduce_exp p (Z.abs_N n) (0 - Z.of_nat p) 0) as [c e].
  destruct Hr as [Hv He].
  unfold quantize. cbn [d_int d_exp d_sign].
  replace (- Z.of_nat p <=? e) with true by (symmetry; apply Z.leb_le; lia).
  f_equal. rewrite <- Hv.
  replace (e - - Z.of_nat p) with (e - (0 - Z.of_nat p)) by lia. reflexivity.
Qed.

Lemma signed_coeff_of_int (n : Z) (e : Z) :
  signed_coeff (mkDecimal (n <? 0) (Z.abs_N n) e) = n.
Proof.
  unfold signed_coeff. cbn [d_sign d_int].
  destruct (n <? 0) eqn:Hn; [apply Z.ltb_lt in Hn | apply Z.ltb_ge in Hn]; lia.
Qed.

(** ** The decoder in closed form *)

Lemma decode_options_Return_inv (st o1 o2 o3 o4 : Z)
    (options : gmap string bool) :
  decode_options [st; o1; o2; o3; o4] = Return options ->
  templates_ok st o1 o2 o3 o4 = true /\ options = options_of st o1 o2 o3 o4.
Proof.
  rewrite decode_options_eq.
  destruct (templates_ok st o1 o2 o3 o4); [|discriminate].
  intros [= <-]. split; reflexivity.
Qed.

(** Every flag of the merged set is the bit of its byte. *)
Lemma lookup_options_of (st o1 o2 o3 o4 : Z) :
  let options := options_of st o1 o2 o3 o4 in
  options !! "Judge" = Some (test_bit st 3)
  /\ options !! "Sign" = Some (test_bit st 2)
  /\ options !! "BATT" = Some (test_bit st 1)
  /\ options !! "OL" = Some (test_bit st 0)
  /\ options !! "MAX" = Some (test_bit o1 3)
  /\ options !! "MIN" = Some (test_bit o1 2)
  /\ options !! "REL" = Some (test_bit o1 1)
  /\ options !! "RMR" = Some (test_bit o1 0)
  /\ options !! "UL" = Some (test_bit o2 3)
  /\ options !! "PMAX" = Some (test_bit o2 2)
  /\ options !! "PMIN" = Some (test_bit o2 1)
  /\ options !! "DC" = Some (test_bit o3 3)
  /\ options !! "AC" = Some (test_bit o3 2)
  /\ options !! "AUTO" = Some (test_bit o3 1)
  /\ options !! "VAHZ" = Some (test_bit o3 0)
  /\ options !! "VBAR" = Some (test_bit o4 2)
  /\ options !! "Hold" = Some (test_bit o4 1)
  /\ options !! "LPF" = Some (test_bit o4 0).
Proof. repeat split. Qed.

(** [parse] on a 12-byte packet, with the flags written as the bits they
    are read from. *)
Lemma parse_eq (r d4 d3 d2 d1 d0 f st o1 o2 o3 o4 : Z) :
  parse [r; d4; d3; d2; d1; d0; f; st; o1; o2; o3; o4] =
  do '(mode, m_range, unit_) <- resolve f r;
  if templates_ok st o1 o2 o3 o4 then
    let options := options_of st o1 o2 o3 o4 in
    if test_bit o3 2 && test_bit o3 3 then Raise ValueError
    else
      do '(mode, m_range, unit_) <- override options mode m_range unit_;
      do '(display_value, display_unit, value) <-
        assemble options [d4; d3; d2; d1; d0] m_range;
      let abnormal := test_bit o2 3 || test_bit st 0 in
      Return
        (mkReading
           (if abnormal then Blank else Num value)
           unit_
           (if abnormal then Blank else Num display_value)
           display_unit
           mode
           (if test_bit o3 3 then Some "AC"
            else if test_bit o3 2 then Some "DC" else None)
           (if test_bit o1 3 then Some "max"
            else if test_bit o1 2 then Some "min" else None)
           (test_bit o1 1)
           (test_bit o4 1)
           (if test_bit o2 3 then "underload"
            else if test_bit st 0 then "overload" else "normal")
           (test_bit st 1))
  else Raise ValueError.
Proof.
  unfold parse.
  destruct (resolve f r) as [[[mode m_range] unit_]|e]; [|reflexivity].
  cbn [bind]. rewrite decode_options_eq.
  destruct (templates_ok st o1 o2 o3 o4); [|reflexivity].
  cbn [bind]. unfold options_of.
  rewrite current_of_flag_map.
  destruct (test_bit o3 2 && test_bit o3 3); [reflexivity|].
  cbn [bind]. rewrite operation_of_flag_map. cbn [bind].
  rewrite getflag_AUTO, getflag_BATT, getflag_REL, getflag_Hold.
  cbn [bind]. rewrite peak_of_flag_map. cbn [bind].
  match goal with
  | |- context [current_range_note ?fm mode] =>
      destruct (current_range_note_flag_map
                  (test_bit st 3) (test_bit st 2) (test_bit st 1)
                  (test_bit st 0) (test_bit o1 3) (test_bit o1 2)
                  (test_bit o1 1) (test_bit o1 0) (test_bit o2 3)
                  (test_bit o2 2) (test_bit o2 1) (test_bit o3 3)
                  (test_bit o3 2) (test_bit o3 1) (test_bit o3 0)
                  (test_bit o4 2) (test_bit o4 1) (test_bit o4 0) mode)
        as [b Hb]
  end.
  rewrite Hb. cbn [bind].
  match goal with
  | |- context [override ?fm mode m_range unit_] =>
      destruct (override fm mode m_range unit_) as [[[mode' m_range'] unit']|e];
        [|reflexivity]
  end.
  cbn [bind].
  match goal with
  | |- context [assemble ?fm ?ds m_range'] =>
      destruct (assemble fm ds m_range') as [[[dv du] v]|e]; [|reflexivity]
  end.
  cbn [bind].
  destruct (test_bit o2 3), (test_bit st 0); reflexivity.
Qed.

(** ** Value assembly *)

(** The stages read the flag set only through the flags they name. *)
Lemma override_ext (options options' : gmap string bool) (mode : string)
    (m_range : range_entry) (unit_ : string) :
  options !! "VAHZ" = options' !! "VAHZ" ->
  options !! "Judge" = options' !! "Judge" ->
  options !! "VBAR" = options' !! "VBAR" ->
  override options mode m_range unit_ = override options' mode m_range unit_.
Proof.
  intros Hv Hj Hb. unfold override, and_then, or_else, fmap_res, getflag.
  rewrite Hv, Hj, Hb. reflexivity.
Qed.

Lemma assemble_ext (options options' : gmap string bool) (d_digits : list Z)
    (m_range : range_entry) :
  options !! "Sign" = options' !! "Sign" ->
  assemble options d_digits m_range = assemble options' d_digits m_range.
Proof.
  intros Hs. unfold assemble, getflag. rewrite Hs. reflexivity.
Qed.

(** With a numeric range the display value is the signed magnitude with
    [precision] decimal places. *)
Lemma assemble_Triple (options : gmap string bool) (d_digits : list Z)
    (scale : float) (precision : nat) (unit_ : string) :
  assemble options d_digits (Triple scale precision unit_) =
  do digits <- map_res (getitem DIGITS) d_digits;
  do sign <- getflag options "Sign";
  let n := if sign then magnitude digits * -1 else magnitude digits in
  let display_value :=
    mkDecimal (n <? 0) (Z.abs_N n) (- Z.of_nat precision) in
  Return (display_value, unit_,
          PrimFloat.mul (float_of_Decimal display_value) scale).
Proof.
  unfold assemble.
  destruct (map_res (getitem DIGITS) d_digits) as [digits|e]; [|reflexivity].
  cbn [bind].
  destruct (getflag options "Sign") as [sign|e]; [|reflexivity].
  cbn [bind]. rewrite div_quantize_exact. reflexivity.
Qed.

(** With a label for range no value is assembled. *)
Lemma assemble_Label (options : gmap string bool) (d_digits : list Z)
    (s : string) (x : Decimal * string * float) :
  assemble options d_digits (Label s) <> Return x.
Proof.
  unfold assemble.
  destruct (map_res (getitem DIGITS) d_digits) as [digits|e]; [|discriminate].
  cbn [bind].
  destruct (getflag options "Sign") as [sign|e]; [|discriminate].
  cbn [bind]. destruct (String.get 1 s); discriminate.
Qed.

Lemma magnitude_five (d4 d3 d2 d1 d0 : Z) :
  magnitude [d4; d3; d2; d1; d0]
  = d4 * 10 ^ 4 + d3 * 10 ^ 3 + d2 * 10 ^ 2 + d1 * 10 + d0.
Proof.
  unfold magnitude. change (seqZ 0 5) with [0; 1; 2; 3; 4].
  cbn [zip zip_with fold_left].
  change (4 - 0) with 4. change (4 - 1) with 3. change (4 - 2) with 2.
  change (4 - 3) with 1. change (4 - 4) with 0. lia.
Qed.

(** * The claims *)

(** C5. For every successfully decoded packet the current kind is ["AC"]
    exactly when the DC flag is set (and AC clear), ["DC"] exactly when the
    AC flag is set (and DC clear), and absent exactly when neither is set. *)
Theorem current_kind_swapped (r d4 d3 d2 d1 d0 f st o1 o2 o3 o4 : Z)
    (rd : Reading) :
  parse [r; d4; d3; d2; d1; d0; f; st; o1; o2; o3; o4] = Return rd ->
  exists (options : gmap string bool) (ac dc : bool),
    decode_options [st; o1; o2; o3; o4] = Return options
    /\ options !! "AC" = Some ac
    /\ options !! "DC" = Some dc
    /\ (r_current rd = Some "AC" <-> dc = true /\ ac = false)
    /\ (r_current rd = Some "DC" <-> ac = true /\ dc = false)
    /\ (r_current rd = None <-> ac = false /\ dc = false).
Proof.
  rewrite parse_eq. intros H.
  destruct (resolve f r) as [[[mode m_range] unit_]|e]; [|discriminate].
  cbn [bind] in H.
  destruct (templates_ok st o1 o2 o3 o4) eqn:Hok; [|discriminate].
  cbn zeta in H.
  destruct (test_bit o3 2 && test_bit o3 3) eqn:Hboth; [discriminate|].
  destruct (override _ mode m_range unit_) as [[[mode' m_range'] unit']|e];
    [|discriminate].
  cbn [bind] in H.
  destruct (assemble _ _ m_range') as [[[dv du] v]|e]; [|discriminate].
  cbn [bind] in H. injection H as <-. cbn [r_current].
  exists (options_of st o1 o2 o3 o4), (test_bit o3 2), (test_bit o3 3).
  split; [rewrite decode_options_eq, Hok; reflexivity|].
  split; [reflexivity|]. split; [reflexivity|].
  destruct (test_bit o3 2), (test_bit o3 3); try discriminate;
    repeat split; intros; try congruence; try tauto;
    match goal with H : _ /\ _ |- _ => destruct H; congruence end.
Qed.

Lemma current_kind_swapped_witness :
  exists (options : gmap string bool) (ac dc : bool),
    decode_options [48; 48; 48; 56; 48] = Return options
    /\ options !! "AC" = Some ac
    /\ options !! "DC" = Some dc
    /\ (Some "AC" = Some "AC" <-> dc = true /\ ac = false)
    /\ (Some "AC" = Some "DC" <-> ac = true /\ dc = false)
    /\ (Some "AC" = @None string <-> ac = false /\ dc = false).
Proof.
  exact (current_kind_swapped 48 50 50 48 48 48 59 48 48 48 56 48
           (mkReading (Num 2.2%float) "V" (Num (mkDecimal false 22000 (-4)))
              "V" "voltage" (Some "AC") None false false "normal" false)
           eq_refl).
Defined.

(** C3, as the code has it. When the function and range bytes resolve in
    their tables and the five flag bytes pass their templates with both the
    AC and the DC flag set, [parse] raises [ValueError], whatever the digit
    bytes and the other flags are. The table lookups come first, so the
    function and range bytes are not arbitrary. *)
Theorem conflicting_flags_after_lookup (r d4 d3 d2 d1 d0 f st o1 o2 o3 o4 : Z)
    (entry : string * range_entry * string) (options : gmap string bool) :
  resolve f r = Return entry ->
  decode_options [st; o1; o2; o3; o4] = Return options ->
  options !! "AC" = Some true ->
  options !! "DC" = Some true ->
  parse [r; d4; d3; d2; d1; d0; f; st; o1; o2; o3; o4] = Raise ValueError.
Proof.
  intros Hres Hdec Hac Hdc.
  apply decode_options_Return_inv in Hdec as [Hok ->].
  destruct (lookup_options_of st o1 o2 o3 o4)
    as (_ & _ & _ & _ & _ & _ & _ & _ & _ & _ & _ & Hdc' & Hac' & _).
  cbn zeta in Hdc', Hac'.
  rewrite Hdc' in Hdc. rewrite Hac' in Hac.
  injection Hdc as Hdc. injection Hac as Hac.
  rewrite parse_eq, Hres. destruct entry as [[mode m_range] unit_].
  cbn [bind]. rewrite Hok. cbn zeta. rewrite Hac, Hdc. reflexivity.
Qed.

Lemma conflicting_flags_after_lookup_witness :
  parse [48; 50; 50; 48; 48; 48; 59; 48; 48; 48; 60; 48] = Raise ValueError.
Proof.
  exact (conflicting_flags_after_lookup 48 50 50 48 48 48 59 48 48 48 60 48
           ("voltage", Triple 1e0 4 "V", "V") (options_of 48 48 48 60 48)
           eq_refl eq_refl eq_refl eq_refl).
Defined.

(** C3 as stated fails: with the AC and DC flags both set and a function
    byte that has no table entry, the error is the [KeyError] of the lookup,
    not the [ValueError] of the conflict. *)
Lemma conflicting_flags_counterexample :
  (exists options : gmap string bool,
     decode_options [48; 48; 48; 60; 48] = Return options
     /\ options !! "AC" = Some true /\ options !! "DC" = Some true)
  /\ parse [48; 50; 50; 48; 48; 48; 0; 48; 48; 48; 60; 48]
     = Raise (KeyError (KInt 0))
  /\ parse [48; 50; 50; 48; 48; 48; 0; 48; 48; 48; 60; 48]
     <> Raise ValueError.
Proof.
  split; [|split].
  - exists (options_of 48 48 48 60 48). repeat split.
  - reflexivity.
  - discriminate.
Qed.

(** C6. For every successfully decoded packet with the VAHZ flag set and
    the Judge flag clear, the mode is ["frequency"], the unit is ["Hz"] and
    the value is assembled with the range [(1e0, 1, "Hz")], whatever the
    function and range bytes resolved to. *)
Theorem frequency_override (r d4 d3 d2 d1 d0 f st o1 o2 o3 o4 : Z)
    (options : gmap string bool) (rd : Reading) :
  parse [r; d4; d3; d2; d1; d0; f; st; o1; o2; o3; o4] = Return rd ->
  decode_options [st; o1; o2; o3; o4] = Return options ->
  options !! "VAHZ" = Some true ->
  options !! "Judge" = Some false ->
  r_mode rd = "frequency" /\ r_unit rd = "Hz" /\ r_display_unit rd = "Hz"
  /\ exists (dv : Decimal) (v : float),
       assemble options [d4; d3; d2; d1; d0] (Triple 1e0 1 "Hz")
       = Return (dv, "Hz", v)
       /\ d_exp dv = -1
       /\ (r_operation rd = "normal" ->
           r_display_value rd = Num dv /\ r_value rd = Num v).
Proof.
  intros H Hdec Hvz Hj.
  apply decode_options_Return_inv in Hdec as [Hok ->].
  destruct (lookup_options_of st o1 o2 o3 o4)
    as (Hj' & _ & _ & _ & _ & _ & _ & _ & _ & _ & _ & _ & _ & _ & Hvz' & _).
  cbn zeta in Hj', Hvz'.
  rewrite Hj' in Hj. rewrite Hvz' in Hvz.
  injection Hj as Hj. injection Hvz as Hvz.
  rewrite parse_eq in H.
  destruct (resolve f r) as [[[mode m_range] unit_]|e]; [|discriminate].
  cbn [bind] in H. rewrite Hok in H. cbn zeta in H.
  destruct (test_bit o3 2 && test_bit o3 3); [discriminate|].
  unfold options_of in H at 1. rewrite override_flag_map in H.
  rewrite Hvz, Hj in H. cbn [andb negb bind] in H.
  destruct (assemble _ _ (Triple 1e0 1 "Hz")) as [[[dv du] v]|e] eqn:Has;
    [|discriminate].
  cbn [bind] in H. injection H as <-.
  cbn [r_mode r_unit r_display_unit r_operation r_display_value r_value].
  pose proof Has as Has'. rewrite assemble_Triple in Has'.
  destruct (map_res (getitem DIGITS) [d4; d3; d2; d1; d0]) as [digits|e];
    [|discriminate].
  cbn [bind] in Has'.
  destruct (getflag (options_of st o1 o2 o3 o4) "Sign") as [sign|e];
    [|discriminate].
  cbn [bind] in Has'. injection Has' as <- <- <-.
  repeat split.
  eexists _, _. split; [reflexivity|]. split; [reflexivity|].
  destruct (test_bit o2 3); [discriminate|].
  destruct (test_bit st 0); [discriminate|].
  intros _. split; reflexivity.
Qed.

Lemma frequency_override_witness :
  "frequency" = "frequency" /\ "Hz" = "Hz" /\ "Hz" = "Hz"
  /\ exists (dv : Decimal) (v : float),
       assemble (options_of 48 48 48 49 48) [50; 50; 48; 48; 48]
         (Triple 1e0 1 "Hz")
       = Return (dv, "Hz", v)
       /\ d_exp dv = -1
       /\ ("normal" = "normal" ->
           Num (mkDecimal false 22000 (-1)) = Num dv
           /\ Num 2200%float = Num v).
Proof.
  exact (frequency_override 48 50 50 48 48 48 59 48 48 48 49 48
           (options_of 48 48 48 49 48)
           (mkReading (Num 2200%float) "Hz"
              (Num (mkDecimal false 22000 (-1)))
              "Hz" "frequency" None None false false "normal" false)
           eq_refl eq_refl eq_refl eq_refl).
Defined.

Lemma test_bit_lor_other (a m i : Z) :
  0 <= i -> Z.testbit m i = false -> test_bit (Z.lor a m) i = test_bit a i.
Proof. intros Hi Hm. rewrite test_bit_lor, Hm by lia. apply orb_false_r. Qed.

Lemma test_bit_lor_set (a m i : Z) :
  0 <= i -> Z.testbit m i = true -> test_bit (Z.lor a m) i = true.
Proof. intros Hi Hm. rewrite test_bit_lor, Hm by lia. apply orb_true_r. Qed.

(** Setting the OL bit of the status byte and the UL bit of the second
    option byte leaves the fixed bits of the templates alone. *)
Lemma templates_ok_set_ul_ol (st o1 o2 o3 o4 : Z) :
  templates_ok (Z.lor st 1) o1 (Z.lor o2 8) o3 o4
  = templates_ok st o1 o2 o3 o4.
Proof.
  unfold templates_ok.
  rewrite !(test_bit_lor_other st 1) by (lia || reflexivity).
  rewrite !(test_bit_lor_other o2 8) by (lia || reflexivity).
  reflexivity.
Qed.

(** C4. A packet that decodes successfully still decodes when the UL and
    OL flags are both set in it: the operation is ["underload"] and the
    value and the display value are blank. *)
Theorem ul_ol_glitch_tolerated (r d4 d3 d2 d1 d0 f st o1 o2 o3 o4 : Z)
    (rd : Reading) :
  parse [r; d4; d3; d2; d1; d0; f; st; o1; o2; o3; o4] = Return rd ->
  exists (options : gmap string bool) (rd' : Reading),
    decode_options [Z.lor st 1; o1; Z.lor o2 8; o3; o4] = Return options
    /\ options !! "UL" = Some true
    /\ options !! "OL" = Some true
    /\ parse [r; d4; d3; d2; d1; d0; f; Z.lor st 1; o1; Z.lor o2 8; o3; o4]
       = Return rd'
    /\ r_operation rd' = "underload"
    /\ r_value rd' = Blank
    /\ r_display_value rd' = Blank.
Proof.
  intros H. rewrite parse_eq in H.
  destruct (resolve f r) as [[[mode m_range] unit_]|e] eqn:Hres;
    [|discriminate].
  cbn [bind] in H.
  destruct (templates_ok st o1 o2 o3 o4) eqn:Hok; [|discriminate].
  cbn zeta in H.
  destruct (test_bit o3 2 && test_bit o3 3) eqn:Hboth; [discriminate|].
  destruct (override (options_of st o1 o2 o3 o4) mode m_range unit_)
    as [[[mode' m_range'] unit']|e] eqn:Hov; [|discriminate].
  cbn [bind] in H.
  destruct (assemble (options_of st o1 o2 o3 o4) [d4; d3; d2; d1; d0] m_range')
    as [[[dv du] v]|e] eqn:Has; [|discriminate].
  clear H.
  assert (Hul : test_bit (Z.lor o2 8) 3 = true)
    by (apply test_bit_lor_set; [lia|reflexivity]).
  assert (Hol : test_bit (Z.lor st 1) 0 = true)
    by (apply test_bit_lor_set; [lia|reflexivity]).
  exists (options_of (Z.lor st 1) o1 (Z.lor o2 8) o3 o4).
  eexists.
  split; [rewrite decode_options_eq, templates_ok_set_ul_ol, Hok; reflexivity|].
  split; [change (Some (test_bit (Z.lor o2 8) 3) = Some true);
          rewrite Hul; reflexivity|].
  split; [change (Some (test_bit (Z.lor st 1) 0) = Some true);
          rewrite Hol; reflexivity|].
  rewrite parse_eq, Hres. cbn [bind].
  rewrite templates_ok_set_ul_ol, Hok. cbn zeta. rewrite Hboth.
  rewrite (override_ext (options_of (Z.lor st 1) o1 (Z.lor o2 8) o3 o4)
             (options_of st o1 o2 o3 o4)), Hov.
  2: reflexivity.
  2: { change (Some (test_bit (Z.lor st 1) 3) = Some (test_bit st 3)).
       rewrite test_bit_lor_other by (lia || reflexivity). reflexivity. }
  2: reflexivity.
  cbn [bind].
  rewrite (assemble_ext (options_of (Z.lor st 1) o1 (Z.lor o2 8) o3 o4)
             (options_of st o1 o2 o3 o4)), Has.
  2: { change (Some (test_bit (Z.lor st 1) 2) = Some (test_bit st 2)).
       rewrite test_bit_lor_other by (lia || reflexivity). reflexivity. }
  cbn [bind]. rewrite Hul, Hol. cbn [orb].
  split; [reflexivity|]. repeat split.
Qed.

Lemma ul_ol_glitch_tolerated_witness :
  exists (options : gmap string bool) (rd' : Reading),
    decode_options [Z.lor 48 1; 48; Z.lor 48 8; 48; 48] = Return options
    /\ options !! "UL" = Some true
    /\ options !! "OL" = Some true
    /\ parse [48; 50; 50; 48; 48; 48; 59; Z.lor 48 1; 48; Z.lor 48 8; 48; 48]
       = Return rd'
    /\ r_operation rd' = "underload"
    /\ r_value rd' = Blank
    /\ r_display_value rd' = Blank.
Proof.
  exact (ul_ol_glitch_tolerated 48 50 50 48 48 48 59 48 48 48 48 48
           (mkReading (Num 2.2%float) "V" (Num (mkDecimal false 22000 (-4)))
              "V" "voltage" None None false false "normal" false)
           eq_refl).
Defined.

(** The display value is the signed five-digit magnitude divided exactly
    by [10^precision]: its coefficient is the magnitude, its exponent is
    [- precision]. *)
Lemma assemble_exact (options : gmap string bool) (sign : bool)
    (b4 b3 b2 b1 b0 d4 d3 d2 d1 d0 : Z)
    (scale : float) (precision : nat) (unit_ : string) :
  options !! "Sign" = Some sign ->
  map_res (getitem DIGITS) [b4; b3; b2; b1; b0] = Return [d4; d3; d2; d1; d0] ->
  exists (dv : Decimal) (v : float),
    assemble options [b4; b3; b2; b1; b0] (Triple scale precision unit_)
    = Return (dv, unit_, v)
    /\ signed_coeff dv
       = (if sign then -1 else 1)
         * (d4 * 10 ^ 4 + d3 * 10 ^ 3 + d2 * 10 ^ 2 + d1 * 10 + d0)
    /\ d_exp dv = - Z.of_nat precision
    /\ v = PrimFloat.mul (float_of_Decimal dv) scale.
Proof.
  intros Hs Hd. rewrite assemble_Triple, Hd. cbn [bind].
  rewrite (getflag_Some _ _ _ Hs). cbn [bind].
  eexists _, _. split; [reflexivity|].
  rewrite signed_coeff_of_int, magnitude_five. cbn [d_exp].
  split; [destruct sign; lia|]. split; reflexivity.
Qed.

(** C1. A voltage packet in the 2.2000 V range with the digits 2,2,0,0,0
    and the Sign, VAHZ, Judge, UL, OL, AC and DC flags clear decodes to the
    display value "2.2000", the value 2.2 and the unit "V"; with the Sign
    flag set instead, to "-2.2000" and -2.2. In general the display value is
    the five-digit magnitude, negated when Sign is set, divided exactly by
    [10^precision]. *)
Theorem voltage_reading (st o1 o2 o3 o4 : Z) (options : gmap string bool)
    (sign : bool) :
  decode_options [st; o1; o2; o3; o4] = Return options ->
  options !! "Sign" = Some sign ->
  options !! "VAHZ" = Some false ->
  options !! "Judge" = Some false ->
  options !! "UL" = Some false ->
  options !! "OL" = Some false ->
  options !! "AC" = Some false ->
  options !! "DC" = Some false ->
  (exists (rd : Reading) (dv : Decimal),
     parse [48; 50; 50; 48; 48; 48; 59; st; o1; o2; o3; o4] = Return rd
     /\ r_display_value rd = Num dv
     /\ str_Decimal dv = (if sign then "-2.2000" else "2.2000")
     /\ r_value rd = Num (if sign then (-2.2)%float else 2.2%float)
     /\ r_unit rd = "V")
  /\ forall (b4 b3 b2 b1 b0 d4 d3 d2 d1 d0 : Z)
       (scale : float) (precision : nat) (unit_ : string),
       map_res (getitem DIGITS) [b4; b3; b2; b1; b0]
       = Return [d4; d3; d2; d1; d0] ->
       exists (dv : Decimal) (v : float),
         assemble options [b4; b3; b2; b1; b0] (Triple scale precision unit_)
         = Return (dv, unit_, v)
         /\ signed_coeff dv
            = (if sign then -1 else 1)
              * (d4 * 10 ^ 4 + d3 * 10 ^ 3 + d2 * 10 ^ 2 + d1 * 10 + d0)
         /\ d_exp dv = - Z.of_nat precision
         /\ v = PrimFloat.mul (float_of_Decimal dv) scale.
Proof.
  intros Hdec Hs Hvz Hj Hul Hol Hac Hdc.
  split; [|intros; eapply assemble_exact; eassumption].
  apply decode_options_Return_inv in Hdec as [Hok ->].
  destruct (lookup_options_of st o1 o2 o3 o4)
    as (Hj' & Hs' & _ & Hol' & _ & _ & _ & _ & Hul' & _ & _ & Hdc' & Hac'
        & _ & Hvz' & _).
  cbn zeta in Hj', Hs', Hol', Hul', Hdc', Hac', Hvz'.
  rewrite Hj' in Hj. rewrite Hs' in Hs. rewrite Hol' in Hol.
  rewrite Hul' in Hul. rewrite Hdc' in Hdc. rewrite Hac' in Hac.
  rewrite Hvz' in Hvz.
  injection Hj as Hj. injection Hs as Hs. injection Hol as Hol.
  injection Hul as Hul. injection Hdc as Hdc. injection Hac as Hac.
  injection Hvz as Hvz.
  rewrite parse_eq.
  change (resolve 59 48) with (Return ("voltage", Triple 1e0 4 "V", "V")).
  cbn [bind]. rewrite Hok. cbn zeta. rewrite Hac, Hdc. cbn [andb].
  unfold options_of at 1. rewrite override_flag_map. rewrite Hvz, Hj.
  cbn [andb negb orb bind].
  change (String.eqb "voltage" "frequency") with false.
  change (String.eqb "voltage" "temperature") with false.
  cbn [andb bind]. rewrite assemble_Triple.
  change (map_res (getitem DIGITS) [50; 50; 48; 48; 48])
    with (Return [2; 2; 0; 0; 0]).
  cbn [bind]. unfold options_of. rewrite getflag_Sign. cbn [bind].
  rewrite Hs, Hul, Hol. cbn [orb].
  eexists _, _. split; [reflexivity|].
  cbn [r_display_value r_value r_unit].
  split; [reflexivity|].
  destruct sign; repeat split.
Qed.

Lemma voltage_reading_witness :
  exists (rd : Reading) (dv : Decimal),
    parse [48; 50; 50; 48; 48; 48; 59; 52; 48; 48; 48; 48] = Return rd
    /\ r_display_value rd = Num dv
    /\ str_Decimal dv = "-2.2000"
    /\ r_value rd = Num (-2.2)%float
    /\ r_unit rd = "V".
Proof.
  exact (proj1 (voltage_reading 52 48 48 48 48 (options_of 52 48 48 48 48)
                  true eq_refl eq_refl eq_refl eq_refl eq_refl eq_refl
                  eq_refl eq_refl)).
Defined.

(** ** The flag set is complete *)

Ltac named_positions :=
  let i := fresh "i" in
  let s := fresh "s" in
  let Hi := fresh "Hi" in
  let HT := fresh "HT" in
  split; [reflexivity|];
  intros i s Hi HT;
  do 7 (destruct i as [|i];
        [cbn in HT; try discriminate HT; injection HT as <-; reflexivity|]);
  lia.

Lemma binds_named_STATUS (b : Z) (m : gmap string bool) :
  get_bits b STATUS = Return m -> binds_named b STATUS m.
Proof.
  rewrite get_bits_STATUS.
  destruct (negb (test_bit b 6) && test_bit b 5 && test_bit b 4);
    [|discriminate].
  intros [= <-]. named_positions.
Qed.

Lemma binds_named_OPTION1 (b : Z) (m : gmap string bool) :
  get_bits b OPTION1 = Return m -> binds_named b OPTION1 m.
Proof.
  rewrite get_bits_OPTION1.
  destruct (negb (test_bit b 6) && test_bit b 5 && test_bit b 4);
    [|discriminate].
  intros [= <-]. named_positions.
Qed.

Lemma binds_named_OPTION2 (b : Z) (m : gmap string bool) :
  get_bits b OPTION2 = Return m -> binds_named b OPTION2 m.
Proof.
  rewrite get_bits_OPTION2.
  destruct (negb (test_bit b 6) && test_bit b 5 && test_bit b 4
            && negb (test_bit b 0)); [|discriminate].
  intros [= <-]. named_positions.
Qed.

Lemma binds_named_OPTION3 (b : Z) (m : gmap string bool) :
  get_bits b OPTION3 = Return m -> binds_named b OPTION3 m.
Proof.
  rewrite get_bits_OPTION3.
  destruct (negb (test_bit b 6) && test_bit b 5 && test_bit b 4);
    [|discriminate].
  intros [= <-]. named_positions.
Qed.

Lemma binds_named_OPTION4 (b : Z) (m : gmap string bool) :
  get_bits b OPTION4 = Return m -> binds_named b OPTION4 m.
Proof.
  rewrite get_bits_OPTION4.
  destruct (negb (test_bit b 6) && test_bit b 5 && test_bit b 4
            && negb (test_bit b 3)); [|discriminate].
  intros [= <-]. named_positions.
Qed.

Lemma NoDup_all_names : NoDup all_names.
Proof. apply (bool_decide_unpack _). reflexivity. Qed.

(** C9. Whenever the five flag bytes are accepted, each decoded mapping
    binds exactly the named positions of its template, the eighteen flag
    names are pairwise distinct, and the merged flag set contains all of
    them, so every flag [parse] looks up afterwards is defined. *)
Theorem flag_set_complete (st o1 o2 o3 o4 : Z)
    (m1 m2 m3 m4 m5 : gmap string bool) :
  get_bits st STATUS = Return m1 ->
  get_bits o1 OPTION1 = Return m2 ->
  get_bits o2 OPTION2 = Return m3 ->
  get_bits o3 OPTION3 = Return m4 ->
  get_bits o4 OPTION4 = Return m5 ->
  binds_named st STATUS m1
  /\ binds_named o1 OPTION1 m2
  /\ binds_named o2 OPTION2 m3
  /\ binds_named o3 OPTION3 m4
  /\ binds_named o4 OPTION4 m5
  /\ NoDup all_names
  /\ length all_names = 18%nat
  /\ exists options : gmap string bool,
       decode_options [st; o1; o2; o3; o4] = Return options
       /\ options = m5 ∪ (m4 ∪ (m3 ∪ (m2 ∪ (m1 ∪ ∅))))
       /\ dom options = list_to_set all_names
       /\ forall k : string, k ∈ looked_up ->
            exists b : bool, getflag options k = Return b.
Proof.
  intros H1 H2 H3 H4 H5.
  split; [apply binds_named_STATUS, H1|].
  split; [apply binds_named_OPTION1, H2|].
  split; [apply binds_named_OPTION2, H3|].
  split; [apply binds_named_OPTION3, H4|].
  split; [apply binds_named_OPTION4, H5|].
  split; [apply NoDup_all_names|].
  split; [reflexivity|].
  assert (Hdec : decode_options [st; o1; o2; o3; o4]
                 = Return (m5 ∪ (m4 ∪ (m3 ∪ (m2 ∪ (m1 ∪ ∅)))))).
  { unfold decode_options. cbn [zip zip_with for_each].
    rewrite H1. cbn [bind]. rewrite H2. cbn [bind]. rewrite H3. cbn [bind].
    rewrite H4. cbn [bind]. rewrite H5. reflexivity. }
  exists (m5 ∪ (m4 ∪ (m3 ∪ (m2 ∪ (m1 ∪ ∅))))).
  split; [exact Hdec|]. split; [reflexivity|].
  apply decode_options_Return_inv in Hdec as [_ Heq].
  rewrite Heq. unfold options_of.
  split; [exact (dom_flag_map _ _ _ _ _ _ _ _ _ _ _ _ _ _ _ _ _ _)|].
  intros k Hk. unfold looked_up in Hk.
  repeat (apply elem_of_cons in Hk as [->|Hk]; [eexists; reflexivity|]).
  apply elem_of_nil in Hk. destruct Hk.
Qed.

Lemma flag_set_complete_witness :
  exists options : gmap string bool,
    decode_options [48; 48; 48; 48; 48] = Return options
    /\ dom options = list_to_set all_names
    /\ forall k : string, k ∈ looked_up ->
         exists b : bool, getflag options k = Return b.
Proof.
  destruct (flag_set_complete 48 48 48 48 48
              (<["Judge" := false]> (<["Sign" := false]>
                 (<["BATT" := false]> (<["OL" := false]> ∅))))
              (<["MAX" := false]> (<["MIN" := false]>
                 (<["REL" := false]> (<["RMR" := false]> ∅))))
              (<["UL" := false]> (<["PMAX" := false]>
                 (<["PMIN" := false]> ∅)))
              (<["DC" := false]> (<["AC" := false]>
                 (<["AUTO" := false]> (<["VAHZ" := false]> ∅))))
              (<["VBAR" := false]> (<["Hold" := false]>
                 (<["LPF" := false]> ∅)))
              eq_refl eq_refl eq_refl eq_refl eq_refl)
    as (_ & _ & _ & _ & _ & _ & _ & options & Hdec & _ & Hdom & Hlook).
  exists options. split; [exact Hdec|]. split; [exact Hdom|exact Hlook].
Defined.

(** ** Bit 7 *)

Lemma FUNCTION_high (f : Z) : 128 <= f -> FUNCTION !! f = None.
Proof.
  intros Hf. unfold FUNCTION. apply not_elem_of_list_to_map_1.
  cbn [fmap list_fmap fst].
  repeat (apply not_elem_of_cons; split; [lia|]).
  apply not_elem_of_nil.
Qed.

(** C7, as the code has it. Two packets with the same range, digit and
    function bytes whose five flag bytes agree on their low seven bits
    decode alike; bit 7 is ignored in the flag bytes only. A function byte
    with bit 7 set has no table entry and the lookup raises [KeyError]. *)
Theorem bit7_ignored_in_flag_bytes
    (r d4 d3 d2 d1 d0 f st o1 o2 o3 o4 st' o1' o2' o3' o4' : Z) :
  Z.land st 127 = Z.land st' 127 ->
  Z.land o1 127 = Z.land o1' 127 ->
  Z.land o2 127 = Z.land o2' 127 ->
  Z.land o3 127 = Z.land o3' 127 ->
  Z.land o4 127 = Z.land o4' 127 ->
  parse [r; d4; d3; d2; d1; d0; f; st; o1; o2; o3; o4]
  = parse [r; d4; d3; d2; d1; d0; f; st'; o1'; o2'; o3'; o4']
  /\ (128 <= f ->
      parse [r; d4; d3; d2; d1; d0; f; st; o1; o2; o3; o4]
      = Raise (KeyError (KInt f))).
Proof.
  intros Hst H1 H2 H3 H4. split.
  - assert (Est : forall i, 0 <= i < 7 -> test_bit st i = test_bit st' i)
      by (intros; apply test_bit_low7; assumption).
    assert (E1 : forall i, 0 <= i < 7 -> test_bit o1 i = test_bit o1' i)
      by (intros; apply test_bit_low7; assumption).
    assert (E2 : forall i, 0 <= i < 7 -> test_bit o2 i = test_bit o2' i)
      by (intros; apply test_bit_low7; assumption).
    assert (E3 : forall i, 0 <= i < 7 -> test_bit o3 i = test_bit o3' i)
      by (intros; apply test_bit_low7; assumption).
    assert (E4 : forall i, 0 <= i < 7 -> test_bit o4 i = test_bit o4' i)
      by (intros; apply test_bit_low7; assumption).
    rewrite !parse_eq. unfold templates_ok, options_of.
    rewrite !(Est 0), !(Est 1), !(Est 2), !(Est 3), !(Est 4), !(Est 5),
      !(Est 6) by lia.
    rewrite !(E1 0), !(E1 1), !(E1 2), !(E1 3), !(E1 4), !(E1 5), !(E1 6)
      by lia.
    rewrite !(E2 0), !(E2 1), !(E2 2), !(E2 3), !(E2 4), !(E2 5), !(E2 6)
      by lia.
    rewrite !(E3 0), !(E3 1), !(E3 2), !(E3 3), !(E3 4), !(E3 5), !(E3 6)
      by lia.
    rewrite !(E4 0), !(E4 1), !(E4 2), !(E4 4), !(E4 5), !(E4 6), !(E4 3)
      by lia.
    reflexivity.
  - intros Hf. unfold parse, resolve, getitem.
    rewrite (FUNCTION_high f Hf). reflexivity.
Qed.

Lemma bit7_ignored_in_flag_bytes_witness :
  parse [48; 50; 50; 48; 48; 48; 59; 48; 48; 48; 48; 48]
  = parse [48; 50; 50; 48; 48; 48; 59; 176; 176; 176; 176; 176].
Proof.
  exact (proj1 (bit7_ignored_in_flag_bytes 48 50 50 48 48 48 59
                  48 48 48 48 48 176 176 176 176 176
                  eq_refl eq_refl eq_refl eq_refl eq_refl)).
Defined.

(** C7 as stated fails: two packets that differ only in bit 7 of the
    function byte do not decode alike. *)
Lemma bit7_counterexample :
  Forall2 (fun a b : Z => Z.land a 127 = Z.land b 127)
    [48; 50; 50; 48; 48; 48; 59; 48; 48; 48; 48; 48]
    [48; 50; 50; 48; 48; 48; 187; 48; 48; 48; 48; 48]
  /\ (exists rd : Reading,
        parse [48; 50; 50; 48; 48; 48; 59; 48; 48; 48; 48; 48] = Return rd)
  /\ parse [48; 50; 50; 48; 48; 48; 187; 48; 48; 48; 48; 48]
     = Raise (KeyError (KInt 187))
  /\ parse [48; 50; 50; 48; 48; 48; 59; 48; 48; 48; 48; 48]
     <> parse [48; 50; 50; 48; 48; 48; 187; 48; 48; 48; 48; 48].
Proof.
  split; [repeat constructor|].
  split; [eexists; reflexivity|].
  split; [reflexivity|].
  change (parse [48; 50; 50; 48; 48; 48; 187; 48; 48; 48; 48; 48])
    with (@Raise Reading (KeyError (KInt 187))).
  change [48; 50; 50; 48; 48; 48; 59; 48; 48; 48; 48; 48] with voltage_packet.
  rewrite parse_voltage_packet. discriminate.
Qed.

(** ** The ADP and temperature functions *)

(** The ADP table holds labels only, each with a letter at index 1. *)
Lemma RANGE_ADP_labels (r : Z) (entry : range_entry) :
  RANGE_ADP !! r = Some entry ->
  exists s : string,
    entry = Label s /\ (exists c, String.get 1 s = Some c)
    /\ resolve 62 r = Return ("ADP", Label s, "").
Proof.
  intros H. unfold RANGE_ADP in H. apply elem_of_list_to_map_2 in H.
  repeat (apply elem_of_cons in H as [[= -> ->]|H];
          [eexists; split; [reflexivity|];
           split; [eexists; reflexivity|reflexivity]|]).
  apply elem_of_nil in H. destruct H.
Qed.

(** C10. An ADP packet with a range code of the ADP table, flag bytes that
    pass their templates and the VAHZ flag clear never decodes: the range
    entry is a label, and unless an earlier check has already failed (AC
    and DC both set, a digit byte without table entry), the value assembly
    raises [TypeError]. *)
Theorem adp_never_decodes (r d4 d3 d2 d1 d0 st o1 o2 o3 o4 : Z)
    (entry : range_entry) (options : gmap string bool) :
  RANGE_ADP !! r = Some entry ->
  decode_options [st; o1; o2; o3; o4] = Return options ->
  options !! "VAHZ" = Some false ->
  (exists s : string, entry = Label s)
  /\ (exists e : exn,
        parse [r; d4; d3; d2; d1; d0; 62; st; o1; o2; o3; o4] = Raise e)
  /\ (forall (x : Decimal * string * float),
        assemble options [d4; d3; d2; d1; d0] entry <> Return x)
  /\ (forall (ac dc : bool) (digits : list Z),
        options !! "AC" = Some ac ->
        options !! "DC" = Some dc ->
        ac && dc = false ->
        map_res (getitem DIGITS) [d4; d3; d2; d1; d0] = Return digits ->
        parse [r; d4; d3; d2; d1; d0; 62; st; o1; o2; o3; o4]
        = Raise TypeError).
Proof.
  intros Hr Hdec Hvz.
  apply RANGE_ADP_labels in Hr as (s & -> & [c Hget] & Hres).
  apply decode_options_Return_inv in Hdec as [Hok ->].
  destruct (lookup_options_of st o1 o2 o3 o4)
    as (_ & _ & _ & _ & _ & _ & _ & _ & _ & _ & _ & Hdc' & Hac' & _ & Hvz'
        & _).
  cbn zeta in Hdc', Hac', Hvz'.
  rewrite Hvz' in Hvz. injection Hvz as Hvz.
  assert (Hparse :
    parse [r; d4; d3; d2; d1; d0; 62; st; o1; o2; o3; o4] =
    if test_bit o3 2 && test_bit o3 3 then Raise ValueError
    else do digits <- map_res (getitem DIGITS) [d4; d3; d2; d1; d0];
         Raise TypeError).
  { rewrite parse_eq, Hres. cbn [bind]. rewrite Hok. cbn zeta.
    destruct (test_bit o3 2 && test_bit o3 3); [reflexivity|].
    unfold options_of at 1. rewrite override_flag_map, Hvz.
    cbn [andb orb].
    change (String.eqb "ADP" "frequency") with false.
    change (String.eqb "ADP" "temperature") with false.
    cbn [andb bind]. unfold assemble.
    destruct (map_res (getitem DIGITS) [d4; d3; d2; d1; d0]) as [digits|e];
      [|reflexivity].
    cbn [bind]. unfold options_of. rewrite getflag_Sign. cbn [bind].
    rewrite Hget. reflexivity. }
  split; [eauto|]. split; [|split].
  - rewrite Hparse. destruct (test_bit o3 2 && test_bit o3 3); [eauto|].
    destruct (map_res (getitem DIGITS) [d4; d3; d2; d1; d0]); cbn [bind];
      eauto.
  - intros x. apply assemble_Label.
  - intros ac dc digits Hac Hdc Hboth Hd.
    rewrite Hac' in Hac. rewrite Hdc' in Hdc.
    injection Hac as Hac. injection Hdc as Hdc.
    rewrite Hparse, Hac, Hdc, Hboth, Hd. reflexivity.
Qed.

Lemma adp_never_decodes_witness :
  parse [48; 50; 50; 48; 48; 48; 62; 48; 48; 48; 48; 48] = Raise TypeError.
Proof.
  exact (proj2 (proj2 (proj2
           (adp_never_decodes 48 50 50 48 48 48 48 48 48 48 48
              (Label "ADP4") (options_of 48 48 48 48 48)
              eq_refl eq_refl eq_refl)))
           false false [2; 2; 0; 0; 0] eq_refl eq_refl eq_refl eq_refl).
Defined.

(** The temperature entry of the function table has no range table, and
    subscripting it raises [TypeError] before any flag is read. *)
Lemma temperature_never_decodes (r d4 d3 d2 d1 d0 st o1 o2 o3 o4 : Z) :
  parse [r; d4; d3; d2; d1; d0; 52; st; o1; o2; o3; o4] = Raise TypeError.
Proof. reflexivity. Qed.

(** C2 fails on the code. The temperature packet with digits 0,0,2,5,0 and
    all flags clear does not decode to a reading in mode "temperature":
    [FUNCTION[d_function][1][d_range]] subscripts [None] and raises
    [TypeError], although the flag bytes pass their templates and lines
    302-305 would have given the range [(1e0, 2, "deg")]. *)
Theorem temperature_packet_raises :
  (exists options : gmap string bool,
     decode_options [48; 48; 48; 48; 48] = Return options
     /\ options !! "VAHZ" = Some false /\ options !! "VBAR" = Some false)
  /\ FUNCTION !! 52 = Some ("temperature", None, "deg")
  /\ parse temperature_packet = Raise TypeError
  /\ override (options_of 48 48 48 48 48) "temperature" (Label "") "deg"
     = Return ("temperature", Triple 1e0 2 "deg", "deg").
Proof.
  split; [exists (options_of 48 48 48 48 48); repeat split|].
  repeat split.
Qed.

(** ** The readable rendering *)

Lemma output_readable_battery_ok (results : Reading) :
  r_battery_low results = false ->
  output_readable results =
  Return (if String.eqb (r_operation results) "normal"
          then format_display (r_display_value results) +:+ " "
               +:+ r_display_unit results
          else "-, the measurement is " +:+ r_operation results +:+ "ed!").
Proof. intros H. unfold output_readable. rewrite H. reflexivity. Qed.

Lemma output_readable_battery_low (results : Reading) :
  r_battery_low results = true ->
  output_readable results = Raise AttributeError.
Proof. intros H. unfold output_readable. rewrite H. reflexivity. Qed.

(** C8 fails on the code. For the reading of the 2.2000 V packet with the
    battery flag set, [output_readable] does not return the line with a
    battery-low notice appended: [line.append] raises [AttributeError].
    With the battery flag clear the line is returned as claimed. *)
Theorem output_readable_battery_raises :
  parse [48; 50; 50; 48; 48; 48; 59; 50; 48; 48; 48; 48]
  = Return (mkReading (Num 2.2%float) "V" (Num (mkDecimal false 22000 (-4)))
              "V" "voltage" None None false false "normal" true)
  /\ output_readable
       (mkReading (Num 2.2%float) "V" (Num (mkDecimal false 22000 (-4)))
          "V" "voltage" None None false false "normal" true)
     = Raise AttributeError
  /\ output_readable
       (mkReading (Num 2.2%float) "V" (Num (mkDecimal false 22000 (-4)))
          "V" "voltage" None None false false "normal" false)
     = Return "2.2000 V"
  /\ output_readable
       (mkReading Blank "V" Blank "V" "voltage" None None false false
          "overload" false)
     = Return "-, the measurement is overloaded!".
Proof. repeat split. Qed.

(** * Further properties of the decoder *)

(** ** [test_bit] and [get_bits] on any template *)

(** X1. For a non-negative offset [test_bit] is the binary digit of the
    integer at that offset. *)
Theorem test_bit_is_binary_digit (int_type offset : Z) :
  0 <= offset ->
  test_bit int_type offset = Z.odd (int_type / 2 ^ offset).
Proof.
  intros H. rewrite test_bit_testbit by lia.
  rewrite Z.testbit_odd, Z.shiftr_div_pow2 by lia. reflexivity.
Qed.

Lemma test_bit_is_binary_digit_witness :
  test_bit 59 3 = Z.odd (59 / 2 ^ 3).
Proof. apply test_bit_is_binary_digit. lia. Defined.

Lemma for_each_ext {A S : Type} (xs : list A) (f g : S -> A -> res S)
    (s : S) :
  (forall s' x, x ∈ xs -> f s' x = g s' x) ->
  for_each xs f s = for_each xs g s.
Proof.
  revert s. induction xs as [|x xs IH]; intros s H; [reflexivity|].
  cbn [for_each]. rewrite (H s x) by (left).
  destruct (g s x) as [s'|e]; [|reflexivity]. cbn [bind].
  apply IH. intros s'' y Hy. apply H. right. exact Hy.
Qed.

(** X2. [get_bits] reads the low seven bits of the byte only, whatever the
    template. *)
Theorem get_bits_low7 (a b : Z) (template : list telem) :
  Z.land a 127 = Z.land b 127 ->
  get_bits a template = get_bits b template.
Proof.
  intros Hab. unfold get_bits. apply for_each_ext.
  intros bits i Hi. apply elem_of_seq in Hi.
  unfold get_bits_body.
  rewrite (test_bit_low7 a b (Z.of_nat i)) by (lia || assumption).
  reflexivity.
Qed.

Lemma get_bits_low7_witness : get_bits 50 STATUS = get_bits 178 STATUS.
Proof. apply get_bits_low7. reflexivity. Defined.

(** X3. A template with fewer than seven elements is rejected with
    [IndexError] at the first position read, whatever the byte. *)
Theorem get_bits_short_template (b : Z) (template : list telem) :
  (length template <= 6)%nat ->
  get_bits b template = Raise IndexError.
Proof.
  intros Hlen. unfold get_bits. cbn [seq for_each]. unfold get_bits_body at 1.
  change (6 - 0)%nat with 6%nat.
  rewrite (lookup_ge_None_2 template 6) by lia. reflexivity.
Qed.

Lemma get_bits_short_template_witness :
  get_bits 48 [Lit false; Lit true; Lit true; Name "OL"] = Raise IndexError.
Proof. apply get_bits_short_template. cbn. lia. Defined.

Section GetBitsLoop.
Variable b : Z.
Variable template : list telem.
Hypothesis Hlen : length template = 7%nat.

(** Over a seven-element template every step of the loop either goes on
    or raises [ValueError]. *)
Lemma get_bits_body_cases (bits : gmap string bool) (i : nat) :
  (exists v, template !! (6 - i)%nat = Some (Lit v)
             /\ get_bits_body b template bits i
                = if Bool.eqb (test_bit b (Z.of_nat i)) v
                  then Return bits else Raise ValueError)
  \/ (exists s, template !! (6 - i)%nat = Some (Name s)
                /\ get_bits_body b template bits i
                   = Return (<[s := test_bit b (Z.of_nat i)]> bits)).
Proof.
  unfold get_bits_body.
  destruct (lookup_lt_is_Some_2 template (6 - i)%nat ltac:(lia)) as [t Ht].
  rewrite Ht. destruct t as [v|s]; [left|right]; eauto.
Qed.

Lemma get_bits_loop_mismatch (idx : list nat) (bits : gmap string bool)
    (i : nat) (v : bool) :
  i ∈ idx ->
  template !! (6 - i)%nat = Some (Lit v) ->
  test_bit b (Z.of_nat i) <> v ->
  for_each idx (get_bits_body b template) bits = Raise ValueError.
Proof.
  intros Hi HT Hne. revert bits.
  induction idx as [|j idx IH]; intros bits; [inversion Hi|].
  cbn [for_each].
  destruct (get_bits_body_cases bits j) as [(w & Hw & ->)|(s & Hs & ->)].
  - destruct (Bool.eqb (test_bit b (Z.of_nat j)) w) eqn:Heq; [|reflexivity].
    cbn [bind]. apply elem_of_cons in Hi as [->|Hi]; [|apply IH, Hi].
    rewrite HT in Hw. injection Hw as <-.
    apply Bool.eqb_prop in Heq. contradiction.
  - cbn [bind]. apply elem_of_cons in Hi as [->|Hi]; [|apply IH, Hi].
    rewrite HT in Hs. discriminate.
Qed.

Lemma get_bits_loop_match (idx : list nat) (bits : gmap string bool) :
  (forall i v, i ∈ idx -> template !! (6 - i)%nat = Some (Lit v) ->
               test_bit b (Z.of_nat i) = v) ->
  exists m : gmap string bool,
    for_each idx (get_bits_body b template) bits = Return m
    /\ dom m = dom bits ∪ list_to_set (names_at template idx).
Proof.
  revert bits. induction idx as [|j idx IH]; intros bits H.
  - exists bits. split; [reflexivity|].
    unfold names_at. cbn [flat_map]. rewrite list_to_set_nil.
    symmetry. apply union_empty_r_L.
  - cbn [for_each].
    assert (Hrest : forall i v, i ∈ idx ->
              template !! (6 - i)%nat = Some (Lit v) ->
              test_bit b (Z.of_nat i) = v)
      by (intros i v Hi; apply H; right; exact Hi).
    unfold names_at. cbn [flat_map]. fold (names_at template idx).
    destruct (get_bits_body_cases bits j) as [(w & Hw & ->)|(s & Hs & ->)].
    + rewrite (H j w) by (left || exact Hw).
      rewrite Bool.eqb_reflx. cbn [bind].
      destruct (IH bits Hrest) as (m & Hm & Hd).
      exists m. split; [exact Hm|]. rewrite Hw. exact Hd.
    + cbn [bind].
      destruct (IH (<[s := test_bit b (Z.of_nat j)]> bits) Hrest)
        as (m & Hm & Hd).
      exists m. split; [exact Hm|]. rewrite Hs, Hd, dom_insert_L.
      cbn [app]. rewrite list_to_set_cons.
      rewrite (comm_L (∪) {[s]} (dom bits)), <- (assoc_L (∪)).
      reflexivity.
Qed.

(** The loop visits the template back to front. *)
Lemma names_at_all : names_at template (seq 0 7) = rev (names template).
Proof.
  destruct template as [|t0 [|t1 [|t2 [|t3 [|t4 [|t5 [|t6 [|t7 l]]]]]]]];
    try discriminate Hlen.
  unfold names_at, names. cbn [seq flat_map].
  cbn [lookup list_lookup Nat.sub].
  destruct t0, t1, t2, t3, t4, t5, t6; reflexivity.
Qed.
End GetBitsLoop.

(** X4. Over a seven-element template, a byte whose bits agree with every
    literal position is accepted, and the mapping returned binds exactly the
    names of the template. *)
Theorem get_bits_accepts (b : Z) (template : list telem) :
  length template = 7%nat ->
  (forall (i : nat) (v : bool),
     (i <= 6)%nat -> template !! (6 - i)%nat = Some (Lit v) ->
     test_bit b (Z.of_nat i) = v) ->
  exists m : gmap string bool,
    get_bits b template = Return m
    /\ forall s : string, s ∈ dom m <-> s ∈ names template.
Proof.
  intros Hlen H.
  destruct (get_bits_loop_match b template Hlen (seq 0 7) ∅) as (m & Hm & Hd).
  { intros i v Hi. apply elem_of_seq in Hi. apply H. lia. }
  exists m. split; [exact Hm|].
  intros s. rewrite Hd, (names_at_all template Hlen), dom_empty_L.
  rewrite elem_of_union, elem_of_list_to_set, !list_elem_of_In, <- in_rev.
  split; [intros [Hs|Hs]; [inversion Hs|exact Hs]|intros Hs; right; exact Hs].
Qed.

Lemma get_bits_accepts_witness :
  exists m : gmap string bool,
    get_bits 57 OPTION3 = Return m
    /\ forall s : string, s ∈ dom m <-> s ∈ names OPTION3.
Proof.
  apply get_bits_accepts; [reflexivity|].
  intros i v Hi.
  do 7 (destruct i as [|i];
        [cbn; intros HT; try discriminate HT; injection HT as <-;
         reflexivity|]).
  lia.
Defined.

(** X5. Over a seven-element template, a byte that differs from a literal
    position is rejected with [ValueError]. *)
Theorem get_bits_rejects (b : Z) (template : list telem) (i : nat)
    (v : bool) :
  length template = 7%nat ->
  (i <= 6)%nat ->
  template !! (6 - i)%nat = Some (Lit v) ->
  test_bit b (Z.of_nat i) <> v ->
  get_bits b template = Raise ValueError.
Proof.
  intros Hlen Hi HT Hne. unfold get_bits.
  apply (get_bits_loop_mismatch b template Hlen (seq 0 7) ∅ i v);
    [apply elem_of_seq; lia|exact HT|exact Hne].
Qed.

Lemma get_bits_rejects_witness : get_bits 49 OPTION2 = Raise ValueError.
Proof.
  apply (get_bits_rejects 49 OPTION2 0 false);
    [reflexivity|lia|reflexivity|discriminate].
Defined.

(** ** The tables *)

Lemma DIGITS_lookup_iff (b d : Z) :
  DIGITS !! b = Some d <-> 48 <= b <= 57 /\ d = b - 48.
Proof.
  split.
  - intros H. unfold DIGITS in H. apply elem_of_list_to_map_2 in H.
    repeat (apply elem_of_cons in H as [[= -> ->]|H]; [lia|]).
    apply elem_of_nil in H. destruct H.
  - intros [Hb ->].
    assert (Hc : b = 48 \/ b = 49 \/ b = 50 \/ b = 51 \/ b = 52 \/ b = 53
                 \/ b = 54 \/ b = 55 \/ b = 56 \/ b = 57) by lia.
    destruct Hc as [->|[->|[->|[->|[->|[->|[->|[->|[->| ->]]]]]]]]];
      reflexivity.
Qed.

(** X6. The digit table holds exactly the ten codes 48..57, each mapped to
    its distance from 48 (the codes are the ASCII digits). *)
Theorem digit_codes (b d : Z) :
  DIGITS !! b = Some d <-> 48 <= b <= 57 /\ d = b - 48.
Proof. exact (DIGITS_lookup_iff b d). Qed.

Lemma resolve_Return_inv (f r : Z) (mode : string) (m_range : range_entry)
    (unit_ : string) :
  resolve f r = Return (mode, m_range, unit_) ->
  exists table : gmap Z range_entry,
    FUNCTION !! f = Some (mode, Some table, unit_)
    /\ table !! r = Some m_range.
Proof.
  unfold resolve, getitem, subscript.
  destruct (FUNCTION !! f) as [[[md [table|]] u]|]; cbn; try discriminate.
  unfold getitem. destruct (table !! r) as [e|] eqn:Hr; cbn; [|discriminate].
  intros [= <- <- <-]. eauto.
Qed.

Ltac table_entries H tac :=
  apply elem_of_list_to_map_2 in H;
  repeat (apply elem_of_cons in H as [H|H]; [simplify_eq; tac|]);
  apply elem_of_nil in H; destruct H.

Ltac range_entries H tac :=
  cbv delta [RANGE_VOLTAGE RANGE_CURRENT_AUTO_UA RANGE_CURRENT_AUTO_MA
             RANGE_CURRENT_22A RANGE_CURRENT_MANUAL RANGE_RESISTANCE
             RANGE_CONTINUITY RANGE_DIODE RANGE_FREQUENCY RANGE_CAPACITANCE
             RANGE_ADP] in H;
  table_entries H tac.

(** Whatever resolves is either an ADP label with a character at index 1
    or a numeric triple of some other, non-temperature mode with at most
    four decimal places. *)
Lemma resolve_shape (f r : Z) (mode : string) (m_range : range_entry)
    (unit_ : string) :
  resolve f r = Return (mode, m_range, unit_) ->
  (mode = "ADP" /\ exists s c, m_range = Label s /\ String.get 1 s = Some c)
  \/ (mode <> "ADP" /\ mode <> "temperature"
      /\ exists scale precision u,
           m_range = Triple scale precision u /\ (precision <= 4)%nat).
Proof.
  intros H. apply resolve_Return_inv in H as (table & Hf & Hr).
  unfold FUNCTION in Hf.
  table_entries Hf
    ltac:(range_entries Hr
            ltac:(first
                    [ left; split; [reflexivity|];
                      eexists _, _; split; reflexivity
                    | right; split; [discriminate|]; split; [discriminate|];
                      eexists _, _, _; split; [reflexivity|lia] ])).
Qed.

(** The modes and units of the function table. *)
Lemma resolve_mode_unit (f r : Z) (mode : string) (m_range : range_entry)
    (unit_ : string) :
  resolve f r = Return (mode, m_range, unit_) ->
  (mode, unit_) ∈
    [("voltage", "V"); ("current", "A"); ("resistance", "W");
     ("continuity", "W"); ("diode", "V"); ("frequency", "Hz");
     ("capacitance", "F"); ("ADP", "")].
Proof.
  intros H. apply resolve_Return_inv in H as (table & Hf & _).
  unfold FUNCTION in Hf.
  table_entries Hf ltac:(apply (bool_decide_unpack _); reflexivity).
Qed.

(** ** Success and failure of [parse] *)

(** Turns a lookup in the merged flag set into the bit it reads. *)
Ltac flag_bit H :=
  apply getflag_Some in H; unfold options_of in H;
  autorewrite with flags in H; injection H as H.

Lemma parse_Return_inv (r d4 d3 d2 d1 d0 f st o1 o2 o3 o4 : Z)
    (rd : Reading) :
  parse [r; d4; d3; d2; d1; d0; f; st; o1; o2; o3; o4] = Return rd ->
  exists mode m_range unit_ mode' m_range' unit' dv du v,
    resolve f r = Return (mode, m_range, unit_)
    /\ templates_ok st o1 o2 o3 o4 = true
    /\ test_bit o3 2 && test_bit o3 3 = false
    /\ override (options_of st o1 o2 o3 o4) mode m_range unit_
       = Return (mode', m_range', unit')
    /\ assemble (options_of st o1 o2 o3 o4) [d4; d3; d2; d1; d0] m_range'
       = Return (dv, du, v)
    /\ rd = mkReading
              (if test_bit o2 3 || test_bit st 0 then Blank else Num v)
              unit'
              (if test_bit o2 3 || test_bit st 0 then Blank else Num dv)
              du mode'
              (if test_bit o3 3 then Some "AC"
               else if test_bit o3 2 then Some "DC" else None)
              (if test_bit o1 3 then Some "max"
               else if test_bit o1 2 then Some "min" else None)
              (test_bit o1 1) (test_bit o4 1)
              (if test_bit o2 3 then "underload"
               else if test_bit st 0 then "overload" else "normal")
              (test_bit st 1).
Proof.
  rewrite parse_eq. intros H.
  destruct (resolve f r) as [[[mode m_range] unit_]|e] eqn:Hres;
    [|discriminate].
  cbn [bind] in H.
  destruct (templates_ok st o1 o2 o3 o4) eqn:Hok; [|discriminate].
  cbn zeta in H.
  destruct (test_bit o3 2 && test_bit o3 3) eqn:Hboth; [discriminate|].
  destruct (override (options_of st o1 o2 o3 o4) mode m_range unit_)
    as [[[mode' m_range'] unit']|e] eqn:Hov; [|discriminate].
  cbn [bind] in H.
  destruct (assemble (options_of st o1 o2 o3 o4) [d4; d3; d2; d1; d0]
              m_range') as [[[dv du] v]|e] eqn:Has; [|discriminate].
  cbn [bind] in H. injection H as <-.
  exists mode, m_range, unit_, mode', m_range', unit', dv, du, v.
  repeat split; assumption.
Qed.

(** X7. A buffer that is not twelve bytes long is rejected by the
    unpacking, before any table is consulted. *)
Theorem parse_wrong_length (packet : list Z) :
  length packet <> 12%nat -> parse packet = Raise StructError.
Proof.
  intros H. unfold parse.
  do 12 (destruct packet as [|? packet]; [reflexivity|]).
  destruct packet; [contradiction H; reflexivity|reflexivity].
Qed.

Lemma parse_wrong_length_witness :
  parse [] = Raise StructError
  /\ parse [48; 50; 50; 48; 48; 48; 59; 48; 48; 48; 48; 48; 13]
     = Raise StructError.
Proof.
  split; apply parse_wrong_length; discriminate.
Defined.

(** X8. A function byte outside 48..63, or one of the four unused codes
    55, 56, 58 and 60, raises [KeyError] for that byte whatever the rest of
    the packet holds. *)
Theorem parse_unknown_function (r d4 d3 d2 d1 d0 f st o1 o2 o3 o4 : Z) :
  f < 48 \/ 63 < f \/ f = 55 \/ f = 56 \/ f = 58 \/ f = 60 ->
  parse [r; d4; d3; d2; d1; d0; f; st; o1; o2; o3; o4]
  = Raise (KeyError (KInt f)).
Proof.
  intros Hf.
  assert (Hn : FUNCTION !! f = None).
  { unfold FUNCTION. apply not_elem_of_list_to_map_1.
    cbn [fmap list_fmap fst].
    repeat (apply not_elem_of_cons; split; [lia|]).
    apply not_elem_of_nil. }
  unfold parse, resolve, getitem. rewrite Hn. reflexivity.
Qed.

Lemma parse_unknown_function_witness :
  parse [48; 50; 50; 48; 48; 48; 60; 48; 48; 48; 60; 48]
  = Raise (KeyError (KInt 60)).
Proof. apply parse_unknown_function. lia. Defined.

(** X9. When the function byte selects a range table that has no entry
    for the range byte, [parse] raises [KeyError] for the range byte, before
    the flag bytes are looked at. *)
Theorem parse_unknown_range (r d4 d3 d2 d1 d0 f st o1 o2 o3 o4 : Z)
    (mode unit_ : string) (table : gmap Z range_entry) :
  FUNCTION !! f = Some (mode, Some table, unit_) ->
  r < 48 \/ 55 < r ->
  parse [r; d4; d3; d2; d1; d0; f; st; o1; o2; o3; o4]
  = Raise (KeyError (KInt r)).
Proof.
  intros Hf Hr.
  assert (Hn : table !! r = None).
  { destruct (table !! r) as [e|] eqn:He; [|reflexivity]. exfalso.
    unfold FUNCTION in Hf.
    table_entries Hf ltac:(range_entries He ltac:(lia)). }
  unfold parse, resolve, getitem. rewrite Hf. cbn [bind fst snd subscript].
  unfold getitem. rewrite Hn. reflexivity.
Qed.

Lemma parse_unknown_range_witness :
  parse [176; 50; 50; 48; 48; 48; 59; 0; 0; 0; 0; 0]
  = Raise (KeyError (KInt 176)).
Proof.
  apply (parse_unknown_range 176 50 50 48 48 48 59 0 0 0 0 0
           "voltage" "V" RANGE_VOLTAGE); [reflexivity|lia].
Defined.

(** X10. When the function and range bytes resolve and one of the flag
    bytes is rejected by its template, [parse] raises [ValueError], the
    exception class of the AC/DC conflict. *)
Theorem parse_template_mismatch (r d4 d3 d2 d1 d0 f st o1 o2 o3 o4 : Z)
    (entry : string * range_entry * string) :
  resolve f r = Return entry ->
  (exists e, get_bits st STATUS = Raise e)
  \/ (exists e, get_bits o1 OPTION1 = Raise e)
  \/ (exists e, get_bits o2 OPTION2 = Raise e)
  \/ (exists e, get_bits o3 OPTION3 = Raise e)
  \/ (exists e, get_bits o4 OPTION4 = Raise e) ->
  parse [r; d4; d3; d2; d1; d0; f; st; o1; o2; o3; o4] = Raise ValueError.
Proof.
  intros Hres H. rewrite parse_eq, Hres. destruct entry as [[mode m] u].
  cbn [bind].
  replace (templates_ok st o1 o2 o3 o4) with false; [reflexivity|].
  symmetry. unfold templates_ok.
  rewrite get_bits_STATUS, get_bits_OPTION1, get_bits_OPTION2,
    get_bits_OPTION3, get_bits_OPTION4 in H.
  destruct (negb (test_bit st 6) && test_bit st 5 && test_bit st 4);
    [|reflexivity].
  destruct (negb (test_bit o1 6) && test_bit o1 5 && test_bit o1 4);
    [|reflexivity].
  destruct (negb (test_bit o2 6) && test_bit o2 5 && test_bit o2 4
            && negb (test_bit o2 0)); [|reflexivity].
  destruct (negb (test_bit o3 6) && test_bit o3 5 && test_bit o3 4);
    [|reflexivity].
  destruct (negb (test_bit o4 6) && test_bit o4 5 && test_bit o4 4
            && negb (test_bit o4 3)); [|reflexivity].
  destruct H as [[e H]|[[e H]|[[e H]|[[e H]|[e H]]]]]; discriminate H.
Qed.

Lemma parse_template_mismatch_witness :
  parse [48; 50; 50; 48; 48; 48; 59; 48; 48; 49; 48; 48] = Raise ValueError.
Proof.
  apply (parse_template_mismatch 48 50 50 48 48 48 59 48 48 49 48 48
           ("voltage", Triple 1e0 4 "V", "V")); [reflexivity|].
  right. right. left. exists ValueError. reflexivity.
Defined.

Lemma getitem_DIGITS_good (b : Z) :
  48 <= b <= 57 -> getitem DIGITS b = Return (b - 48).
Proof.
  intros Hb. unfold getitem.
  rewrite (proj2 (DIGITS_lookup_iff b (b - 48))) by (split; [lia|reflexivity]).
  reflexivity.
Qed.

Lemma getitem_DIGITS_bad (b : Z) :
  ~ 48 <= b <= 57 -> getitem DIGITS b = Raise (KeyError (KInt b)).
Proof.
  intros Hb. unfold getitem.
  destruct (DIGITS !! b) as [d|] eqn:Hd; [|reflexivity].
  apply DIGITS_lookup_iff in Hd. tauto.
Qed.

(** The digit bytes are translated left to right; the first byte without
    table entry stops the translation. *)
Lemma map_res_DIGITS_first_bad (good rest : list Z) (bad : Z) :
  Forall (fun b => 48 <= b <= 57) good ->
  ~ 48 <= bad <= 57 ->
  map_res (getitem DIGITS) (good ++ bad :: rest)
  = Raise (KeyError (KInt bad)).
Proof.
  intros Hgood Hbad. induction Hgood as [|b good Hb _ IH]; cbn [app map_res].
  - rewrite getitem_DIGITS_bad by exact Hbad. reflexivity.
  - rewrite getitem_DIGITS_good by exact Hb. cbn [bind]. rewrite IH.
    reflexivity.
Qed.

Lemma map_res_DIGITS_all_good (ds : list Z) :
  Forall (fun b => 48 <= b <= 57) ds ->
  map_res (getitem DIGITS) ds = Return (map (fun b => b - 48) ds).
Proof.
  intros H. induction H as [|b ds Hb _ IH]; [reflexivity|].
  cbn [map_res map]. rewrite getitem_DIGITS_good by exact Hb. cbn [bind].
  rewrite IH. reflexivity.
Qed.

Lemma map_res_DIGITS_Return_inv (ds digits : list Z) :
  map_res (getitem DIGITS) ds = Return digits ->
  Forall (fun b => 48 <= b <= 57) ds /\ digits = map (fun b => b - 48) ds.
Proof.
  revert digits. induction ds as [|b ds IH]; intros digits H.
  - injection H as <-. split; [constructor|reflexivity].
  - cbn [map_res] in H. unfold getitem at 1 in H.
    destruct (DIGITS !! b) as [d|] eqn:Hb; [|discriminate].
    cbn [bind] in H.
    destruct (map_res (getitem DIGITS) ds) as [ds'|e]; [|discriminate].
    cbn [bind] in H. injection H as <-.
    apply DIGITS_lookup_iff in Hb as [Hb ->].
    destruct (IH ds' eq_refl) as [HF ->].
    split; [constructor; assumption|reflexivity].
Qed.

Lemma override_Return (options : gmap string bool) (st o1 o2 o3 o4 : Z)
    (mode : string) (m_range : range_entry) (unit_ : string) :
  options = options_of st o1 o2 o3 o4 ->
  exists x, override options mode m_range unit_ = Return x.
Proof.
  intros ->. unfold options_of. rewrite override_flag_map. eauto.
Qed.

(** X11. When the lookups, the templates and the AC/DC check pass, a digit
    byte outside 48..57 raises [KeyError] for the leftmost such byte, in
    every mode. *)
Theorem parse_unknown_digit (r d4 d3 d2 d1 d0 f st o1 o2 o3 o4 : Z)
    (entry : string * range_entry * string) (options : gmap string bool)
    (good rest : list Z) (bad : Z) :
  resolve f r = Return entry ->
  decode_options [st; o1; o2; o3; o4] = Return options ->
  options !! "AC" = Some false \/ options !! "DC" = Some false ->
  [d4; d3; d2; d1; d0] = (good ++ bad :: rest)%list ->
  Forall (fun b => 48 <= b <= 57) good ->
  ~ 48 <= bad <= 57 ->
  parse [r; d4; d3; d2; d1; d0; f; st; o1; o2; o3; o4]
  = Raise (KeyError (KInt bad)).
Proof.
  intros Hres Hdec Hacdc Hds Hgood Hbad.
  apply decode_options_Return_inv in Hdec as [Hok ->].
  assert (Hboth : test_bit o3 2 && test_bit o3 3 = false).
  { destruct Hacdc as [H|H]; flag_bit H; rewrite H;
      [reflexivity|apply andb_false_r]. }
  rewrite parse_eq, Hres. destruct entry as [[mode m_range] unit_].
  cbn [bind]. rewrite Hok. cbn zeta. rewrite Hboth.
  destruct (override_Return (options_of st o1 o2 o3 o4) st o1 o2 o3 o4
              mode m_range unit_ eq_refl) as [[[mode' m_range'] unit'] ->].
  cbn [bind]. unfold assemble. rewrite Hds.
  rewrite (map_res_DIGITS_first_bad good rest bad Hgood Hbad). reflexivity.
Qed.

Lemma parse_unknown_digit_witness :
  parse [48; 50; 50; 58; 48; 10; 62; 48; 48; 48; 48; 48]
  = Raise (KeyError (KInt 58)).
Proof.
  apply (parse_unknown_digit 48 50 50 58 48 10 62 48 48 48 48 48
           ("ADP", Label "ADP4", "") (options_of 48 48 48 48 48)
           [50; 50] [48; 10] 58);
    [reflexivity|reflexivity|left; reflexivity|reflexivity| |lia].
  repeat constructor; lia.
Defined.

(** X12. [parse] returns a reading exactly when the function and range
    bytes resolve, the five flag bytes pass their templates, AC and DC are
    not both set, the five digit bytes are digit codes, and the range entry
    is a numeric triple or the VAHZ flag replaces it. *)
Theorem parse_succeeds_iff (r d4 d3 d2 d1 d0 f st o1 o2 o3 o4 : Z) :
  (exists rd, parse [r; d4; d3; d2; d1; d0; f; st; o1; o2; o3; o4]
              = Return rd)
  <->
  exists mode m_range unit_ options,
    resolve f r = Return (mode, m_range, unit_)
    /\ decode_options [st; o1; o2; o3; o4] = Return options
    /\ (options !! "AC" = Some false \/ options !! "DC" = Some false)
    /\ Forall (fun b => 48 <= b <= 57) [d4; d3; d2; d1; d0]
    /\ ((exists scale precision u, m_range = Triple scale precision u)
        \/ options !! "VAHZ" = Some true).
Proof.
  split.
  - intros [rd H].
    apply parse_Return_inv in H
      as (mode & m_range & unit_ & mode' & m_range' & unit' & dv & du & v
          & Hres & Hok & Hboth & Hov & Has & _).
    exists mode, m_range, unit_, (options_of st o1 o2 o3 o4).
    split; [exact Hres|].
    split; [rewrite decode_options_eq, Hok; reflexivity|].
    split.
    { change (Some (test_bit o3 2) = Some false
              \/ Some (test_bit o3 3) = Some false).
      destruct (test_bit o3 2), (test_bit o3 3); try discriminate; auto. }
    split.
    { unfold assemble in Has.
      destruct (map_res (getitem DIGITS) [d4; d3; d2; d1; d0]) as [ds|e]
        eqn:Hd; [|discriminate].
      exact (proj1 (map_res_DIGITS_Return_inv _ _ Hd)). }
    change (options_of st o1 o2 o3 o4 !! "VAHZ")
      with (Some (test_bit o3 0)).
    unfold options_of in Hov. rewrite override_flag_map in Hov.
    apply resolve_shape in Hres
      as [(-> & s & c & -> & Hc)|(_ & _ & sc & p & u & -> & _)];
      [|left; eauto].
    right. destruct (test_bit o3 0); [reflexivity|]. exfalso.
    cbn [andb orb] in Hov.
    change (String.eqb "ADP" "frequency") with false in Hov.
    change (String.eqb "ADP" "temperature") with false in Hov.
    cbn [andb] in Hov. injection Hov as <- <- <-.
    exact (assemble_Label _ _ _ _ Has).
  - intros (mode & m_range & unit_ & options & Hres & Hdec & Hacdc & Hds
            & Hnum).
    apply decode_options_Return_inv in Hdec as [Hok ->].
    assert (Hboth : test_bit o3 2 && test_bit o3 3 = false).
    { destruct Hacdc as [H|H]; flag_bit H; rewrite H;
        [reflexivity|apply andb_false_r]. }
    rewrite parse_eq, Hres. cbn [bind]. rewrite Hok. cbn zeta.
    rewrite Hboth. unfold options_of at 1. rewrite override_flag_map.
    assert (Htriple : forall scale precision u,
      exists x, assemble (options_of st o1 o2 o3 o4) [d4; d3; d2; d1; d0]
                  (Triple scale precision u) = Return x).
    { intros. rewrite assemble_Triple, (map_res_DIGITS_all_good _ Hds).
      cbn [bind]. unfold options_of. rewrite getflag_Sign. cbn [bind].
      eauto. }
    destruct (test_bit o3 0 && negb (test_bit st 3)) eqn:Hfreq.
    { cbn [bind]. destruct (Htriple 1e0%float 1%nat "Hz") as [[[dv du] v] ->].
      cbn [bind]. eauto. }
    destruct ((test_bit o3 0 || String.eqb mode "frequency")
              && test_bit st 3) eqn:Hduty.
    { cbn [bind]. destruct (Htriple 1e0%float 1%nat "%") as [[[dv du] v] ->].
      cbn [bind]. eauto. }
    destruct (String.eqb mode "temperature").
    { cbn [bind].
      destruct (Htriple 1e0%float (if test_bit o4 2 then 1%nat else 2%nat)
                  "deg") as [[[dv du] v] ->].
      cbn [bind]. eauto. }
    cbn [bind].
    destruct Hnum as [(sc & p & u & ->)|Hvz].
    + destruct (Htriple sc p u) as [[[dv du] v] ->]. cbn [bind]. eauto.
    + flag_bit Hvz. rewrite Hvz in Hfreq, Hduty. cbn [andb orb] in *.
      destruct (test_bit st 3); discriminate.
Qed.

(** ** The fields of a reading *)

(** X13. The operation of a reading is "underload" when UL is set,
    "overload" when only OL is set and "normal" otherwise; the value and the
    display value are numbers exactly when the operation is "normal" and
    blank otherwise. *)
Theorem operation_and_value (r d4 d3 d2 d1 d0 f st o1 o2 o3 o4 : Z)
    (rd : Reading) (options : gmap string bool) (ul ol : bool) :
  parse [r; d4; d3; d2; d1; d0; f; st; o1; o2; o3; o4] = Return rd ->
  decode_options [st; o1; o2; o3; o4] = Return options ->
  options !! "UL" = Some ul ->
  options !! "OL" = Some ol ->
  r_operation rd
  = (if ul then "underload" else if ol then "overload" else "normal")
  /\ (ul || ol = true ->
      r_value rd = Blank /\ r_display_value rd = Blank)
  /\ (ul || ol = false ->
      exists dv v, r_value rd = Num v /\ r_display_value rd = Num dv).
Proof.
  intros H Hdec Hul Hol.
  apply decode_options_Return_inv in Hdec as [_ ->].
  flag_bit Hul. flag_bit Hol.
  apply parse_Return_inv in H
    as (mode & m_range & unit_ & mode' & m_range' & unit' & dv & du & v
        & _ & _ & _ & _ & _ & ->).
  cbn [r_operation r_value r_display_value]. rewrite Hul, Hol.
  split; [reflexivity|].
  split; intros ->; [split; reflexivity|eauto].
Qed.

Lemma operation_and_value_witness :
  "overload" = "overload"
  /\ (false || true = true ->
      @Blank float = Blank /\ @Blank Decimal = Blank)
  /\ (false || true = false ->
      exists (dv : Decimal) (v : float),
        Blank = Num v /\ Blank = Num dv).
Proof.
  exact (operation_and_value 48 50 50 48 48 48 59 49 48 48 48 48
           (mkReading Blank "V" Blank "V" "voltage" None None false false
              "overload" false)
           (options_of 49 48 48 48 48) false true
           eq_refl eq_refl eq_refl eq_refl).
Defined.

(** X14. With the Judge flag set, and the VAHZ flag set or the function in
    frequency mode, the reading is a duty cycle in percent with one decimal
    place, whatever the range byte selected. *)
Theorem duty_cycle_override (r d4 d3 d2 d1 d0 f st o1 o2 o3 o4 : Z)
    (rd : Reading) (options : gmap string bool)
    (mode : string) (m_range : range_entry) (unit_ : string) :
  parse [r; d4; d3; d2; d1; d0; f; st; o1; o2; o3; o4] = Return rd ->
  resolve f r = Return (mode, m_range, unit_) ->
  decode_options [st; o1; o2; o3; o4] = Return options ->
  options !! "Judge" = Some true ->
  options !! "VAHZ" = Some true \/ mode = "frequency" ->
  r_mode rd = "duty_cycle" /\ r_unit rd = "%" /\ r_display_unit rd = "%"
  /\ (r_operation rd = "normal" ->
      exists dv, r_display_value rd = Num dv /\ d_exp dv = -1
                 /\ r_value rd
                    = Num (PrimFloat.mul (float_of_Decimal dv) 1e0)).
Proof.
  intros H Hres Hdec Hj Hvz.
  apply decode_options_Return_inv in Hdec as [_ ->].
  flag_bit Hj.
  assert (Hc : (test_bit o3 0 || String.eqb mode "frequency") = true).
  { destruct Hvz as [Hvz| ->]; [flag_bit Hvz; rewrite Hvz; reflexivity|].
    apply orb_true_r. }
  apply parse_Return_inv in H
    as (mode0 & m_range0 & unit0 & mode' & m_range' & unit' & dv & du & v
        & Hres' & _ & _ & Hov & Has & ->).
  rewrite Hres in Hres'. injection Hres' as <- <- <-.
  unfold options_of in Hov. rewrite override_flag_map, Hj, Hc in Hov.
  rewrite andb_false_r in Hov. cbn [andb] in Hov.
  injection Hov as <- <- <-.
  rewrite assemble_Triple in Has.
  destruct (map_res (getitem DIGITS) [d4; d3; d2; d1; d0]) as [ds|e];
    [|discriminate].
  cbn [bind] in Has.
  destruct (getflag (options_of st o1 o2 o3 o4) "Sign") as [sign|e];
    [|discriminate].
  cbn [bind] in Has. injection Has as <- <- <-.
  cbn [r_mode r_unit r_display_unit r_operation r_display_value r_value].
  repeat split.
  destruct (test_bit o2 3); [discriminate|].
  destruct (test_bit st 0); [discriminate|].
  intros _. eexists. repeat split.
Qed.

Lemma duty_cycle_override_witness :
  "duty_cycle" = "duty_cycle" /\ "%" = "%" /\ "%" = "%"
  /\ ("normal" = "normal" ->
      exists dv, Num (mkDecimal false 503 (-1)) = Num dv /\ d_exp dv = -1
                 /\ Num 50.3%float
                    = Num (PrimFloat.mul (float_of_Decimal dv) 1e0)).
Proof.
  exact (duty_cycle_override 49 48 48 53 48 51 50 56 48 48 48 48
           (mkReading (Num 50.3%float) "%" (Num (mkDecimal false 503 (-1)))
              "%" "duty_cycle" None None false false "normal" false)
           (options_of 56 48 48 48 48)
           "frequency" (Triple 1e0 1 "Hz") "Hz"
           eq_refl eq_refl eq_refl eq_refl (or_intror eq_refl)).
Defined.

(** X15. Without the VAHZ flag, and outside frequency mode or with the
    Judge flag clear, the mode and unit of a reading are those of the
    function table and the display unit is that of the range table. *)
Theorem no_override (r d4 d3 d2 d1 d0 f st o1 o2 o3 o4 : Z)
    (rd : Reading) (options : gmap string bool)
    (mode : string) (m_range : range_entry) (unit_ : string) :
  parse [r; d4; d3; d2; d1; d0; f; st; o1; o2; o3; o4] = Return rd ->
  resolve f r = Return (mode, m_range, unit_) ->
  decode_options [st; o1; o2; o3; o4] = Return options ->
  options !! "VAHZ" = Some false ->
  mode <> "frequency" \/ options !! "Judge" = Some false ->
  r_mode rd = mode /\ r_unit rd = unit_
  /\ exists scale precision,
       m_range = Triple scale precision (r_display_unit rd).
Proof.
  intros H Hres Hdec Hvz Hj.
  apply decode_options_Return_inv in Hdec as [_ ->].
  flag_bit Hvz.
  assert (Hc : (test_bit o3 0 || String.eqb mode "frequency")
               && test_bit st 3 = false).
  { rewrite Hvz. cbn [orb]. destruct Hj as [Hm|Hj].
    - apply String.eqb_neq in Hm. rewrite Hm. reflexivity.
    - flag_bit Hj. rewrite Hj. apply andb_false_r. }
  apply parse_Return_inv in H
    as (mode0 & m_range0 & unit0 & mode' & m_range' & unit' & dv & du & v
        & Hres' & _ & _ & Hov & Has & ->).
  rewrite Hres in Hres'. injection Hres' as <- <- <-.
  unfold options_of in Hov. rewrite override_flag_map, Hc, Hvz in Hov.
  cbn [andb] in Hov.
  apply resolve_shape in Hres
    as [(-> & s & c & -> & Hc')|(_ & Ht & sc & p & u & -> & _)].
  - change (String.eqb "ADP" "temperature") with false in Hov.
    injection Hov as <- <- <-.
    destruct (assemble_Label _ _ _ _ Has).
  - apply String.eqb_neq in Ht. rewrite Ht in Hov.
    injection Hov as <- <- <-.
    rewrite assemble_Triple in Has.
    destruct (map_res (getitem DIGITS) [d4; d3; d2; d1; d0]) as [ds|e];
      [|discriminate].
    cbn [bind] in Has.
    destruct (getflag (options_of st o1 o2 o3 o4) "Sign") as [sign|e];
      [|discriminate].
    cbn [bind] in Has. injection Has as <- <- <-.
    cbn [r_mode r_unit r_display_unit]. repeat split. eauto.
Qed.

Lemma no_override_witness :
  "voltage" = "voltage" /\ "V" = "V"
  /\ exists scale precision, Triple 1e-3 2 "mV" = Triple scale precision "mV".
Proof.
  apply (no_override 52 50 50 48 48 48 59 48 48 48 48 48
           (mkReading (Num 0.22%float) "V" (Num (mkDecimal false 22000 (-2)))
              "mV" "voltage" None None false false "normal" false)
           (options_of 48 48 48 48 48)
           "voltage" (Triple 1e-3 2 "mV") "V");
    [reflexivity|reflexivity|reflexivity|reflexivity|left; discriminate].
Defined.

(** X16. The peak, battery, relative and hold fields of a reading mirror
    the MAX, MIN, BATT, REL and Hold flags; MAX wins over MIN. *)
Theorem status_fields (r d4 d3 d2 d1 d0 f st o1 o2 o3 o4 : Z)
    (rd : Reading) (options : gmap string bool) (mx mn bt rl hd : bool) :
  parse [r; d4; d3; d2; d1; d0; f; st; o1; o2; o3; o4] = Return rd ->
  decode_options [st; o1; o2; o3; o4] = Return options ->
  options !! "MAX" = Some mx ->
  options !! "MIN" = Some mn ->
  options !! "BATT" = Some bt ->
  options !! "REL" = Some rl ->
  options !! "Hold" = Some hd ->
  r_peak rd = (if mx then Some "max" else if mn then Some "min" else None)
  /\ r_battery_low rd = bt
  /\ r_relative rd = rl
  /\ r_hold rd = hd.
Proof.
  intros H Hdec Hmx Hmn Hbt Hrl Hhd.
  apply decode_options_Return_inv in Hdec as [_ ->].
  flag_bit Hmx. flag_bit Hmn. flag_bit Hbt. flag_bit Hrl. flag_bit Hhd.
  apply parse_Return_inv in H
    as (mode & m_range & unit_ & mode' & m_range' & unit' & dv & du & v
        & _ & _ & _ & _ & _ & ->).
  cbn [r_peak r_battery_low r_relative r_hold].
  rewrite Hmx, Hmn, Hbt, Hrl, Hhd. repeat split.
Qed.

Lemma status_fields_witness :
  Some "max" = Some "max" /\ true = true /\ false = false /\ true = true.
Proof.
  exact (status_fields 48 50 50 48 48 48 59 50 60 48 48 50
           (mkReading (Num 2.2%float) "V" (Num (mkDecimal false 22000 (-4)))
              "V" "voltage" None (Some "max") false true "normal" true)
           (options_of 50 60 48 48 50) true true true false true
           eq_refl eq_refl eq_refl eq_refl eq_refl eq_refl eq_refl).
Defined.

(** ** Digits and the display value *)

Lemma magnitude_five_digits (d4 d3 d2 d1 d0 : Z) :
  0 <= d4 <= 9 -> 0 <= d3 <= 9 -> 0 <= d2 <= 9 -> 0 <= d1 <= 9 ->
  0 <= d0 <= 9 ->
  let n := magnitude [d4; d3; d2; d1; d0] in
  0 <= n <= 99999
  /\ [n / 10000 mod 10; n / 1000 mod 10; n / 100 mod 10; n / 10 mod 10;
      n mod 10] = [d4; d3; d2; d1; d0].
Proof.
  intros H4 H3 H2 H1 H0. cbn zeta. rewrite magnitude_five.
  change (10 ^ 4) with 10000. change (10 ^ 3) with 1000.
  change (10 ^ 2) with 100.
  set (n := d4 * 10000 + d3 * 1000 + d2 * 100 + d1 * 10 + d0).
  assert (E4 : n / 10000 = d4) by (subst n; symmetry;
    apply (Z.div_unique _ 10000 d4 (d3 * 1000 + d2 * 100 + d1 * 10 + d0));
    lia).
  assert (E3 : n / 1000 = d4 * 10 + d3) by (subst n; symmetry;
    apply (Z.div_unique _ 1000 _ (d2 * 100 + d1 * 10 + d0)); lia).
  assert (E2 : n / 100 = d4 * 100 + d3 * 10 + d2) by (subst n; symmetry;
    apply (Z.div_unique _ 100 _ (d1 * 10 + d0)); lia).
  assert (E1 : n / 10 = d4 * 1000 + d3 * 100 + d2 * 10 + d1)
    by (subst n; symmetry; apply (Z.div_unique _ 10 _ d0); lia).
  split; [subst n; lia|].
  rewrite E4, E3, E2, E1.
  repeat f_equal.
  - symmetry. apply (Z.mod_unique _ 10 0); lia.
  - symmetry. apply (Z.mod_unique _ 10 d4); lia.
  - symmetry. apply (Z.mod_unique _ 10 (d4 * 10 + d3)); lia.
  - symmetry. apply (Z.mod_unique _ 10 (d4 * 100 + d3 * 10 + d2)); lia.
  - symmetry. subst n.
    apply (Z.mod_unique _ 10 (d4 * 1000 + d3 * 100 + d2 * 10 + d1)); lia.
Qed.

(** X17. Five numerals between 0 and 9 are read as a number of at most
    five digits, from which each numeral can be read back. *)
Theorem magnitude_digits (d4 d3 d2 d1 d0 : Z) :
  0 <= d4 <= 9 -> 0 <= d3 <= 9 -> 0 <= d2 <= 9 -> 0 <= d1 <= 9 ->
  0 <= d0 <= 9 ->
  let n := magnitude [d4; d3; d2; d1; d0] in
  0 <= n <= 99999
  /\ [n / 10000 mod 10; n / 1000 mod 10; n / 100 mod 10; n / 10 mod 10;
      n mod 10] = [d4; d3; d2; d1; d0].
Proof. exact (magnitude_five_digits d4 d3 d2 d1 d0). Qed.

Lemma magnitude_digits_witness :
  let n := magnitude [1; 9; 0; 4; 7] in
  0 <= n <= 99999
  /\ [n / 10000 mod 10; n / 1000 mod 10; n / 100 mod 10; n / 10 mod 10;
      n mod 10] = [1; 9; 0; 4; 7].
Proof. apply magnitude_digits; lia. Defined.

Lemma magnitude_range (ds : list Z) :
  length ds = 5%nat ->
  Forall (fun b => 48 <= b <= 57) ds ->
  0 <= magnitude (map (fun b => b - 48) ds) <= 99999.
Proof.
  intros Hlen HF.
  destruct ds as [|b4 [|b3 [|b2 [|b1 [|b0 [|? ?]]]]]]; try discriminate Hlen.
  inversion HF as [|? ? H4 HF3]; subst.
  inversion HF3 as [|? ? H3 HF2]; subst.
  inversion HF2 as [|? ? H2 HF1]; subst.
  inversion HF1 as [|? ? H1 HF0]; subst.
  inversion HF0 as [|? ? H0 _]; subst.
  cbn [map].
  apply (magnitude_five_digits (b4 - 48) (b3 - 48) (b2 - 48) (b1 - 48) (b0 - 48));
    lia.
Qed.

(** X18. The display value of a reading has a coefficient of at most five
    digits and between zero and four decimal places, and is never a negative
    zero: with five zero digits the Sign flag leaves no trace. *)
Theorem display_value_bounds (r d4 d3 d2 d1 d0 f st o1 o2 o3 o4 : Z)
    (rd : Reading) (dv : Decimal) :
  parse [r; d4; d3; d2; d1; d0; f; st; o1; o2; o3; o4] = Return rd ->
  r_display_value rd = Num dv ->
  (d_int dv <= 99999)%N
  /\ -4 <= d_exp dv <= 0
  /\ (d_sign dv = true -> d_int dv <> 0%N).
Proof.
  intros H Hdv.
  apply parse_Return_inv in H
    as (mode & m_range & unit_ & mode' & m_range' & unit' & dv' & du & v
        & Hres & _ & _ & Hov & Has & ->).
  cbn [r_display_value] in Hdv.
  destruct (test_bit o2 3 || test_bit st 0); [discriminate|].
  injection Hdv as ->.
  assert (Hp : exists scale precision u,
             m_range' = Triple scale precision u /\ (precision <= 4)%nat).
  { destruct m_range' as [sc p u|s]; [|destruct (assemble_Label _ _ _ _ Has)].
    exists sc, p, u. split; [reflexivity|].
    unfold options_of in Hov. rewrite override_flag_map in Hov.
    destruct (test_bit o3 0 && negb (test_bit st 3));
      [simplify_eq; lia|].
    destruct ((test_bit o3 0 || String.eqb mode "frequency")
              && test_bit st 3); [simplify_eq; lia|].
    destruct (String.eqb mode "temperature");
      [simplify_eq; destruct (test_bit o4 2); lia|].
    apply resolve_shape in Hres
      as [(_ & s & c & Hl & _)|(_ & _ & sc' & p' & u' & Ht & Hle)];
      simplify_eq. exact Hle. }
  destruct Hp as (sc & p & u & -> & Hple).
  rewrite assemble_Triple in Has.
  destruct (map_res (getitem DIGITS) [d4; d3; d2; d1; d0]) as [ds|e] eqn:Hd;
    [|discriminate].
  apply map_res_DIGITS_Return_inv in Hd as [HF ->].
  pose proof (magnitude_range [d4; d3; d2; d1; d0] eq_refl HF) as Hm.
  cbn [bind] in Has.
  destruct (getflag (options_of st o1 o2 o3 o4) "Sign") as [sign|e];
    [|discriminate].
  cbn [bind] in Has. injection Has as <- _ _.
  cbn [d_int d_exp d_sign].
  cbn [map] in Hm |- *.
  set (m := magnitude [d4 - 48; d3 - 48; d2 - 48; d1 - 48; d0 - 48]) in *.
  split; [destruct sign; lia|]. split; [lia|].
  intros Hneg. apply Z.ltb_lt in Hneg. destruct sign; lia.
Qed.

Lemma display_value_bounds_witness :
  (0 <= 99999)%N /\ -4 <= -4 <= 0 /\ (false = true -> 0%N <> 0%N).
Proof.
  exact (display_value_bounds 48 48 48 48 48 48 59 52 48 48 48 48
           (mkReading (Num 0%float) "V" (Num (mkDecimal false 0 (-4)))
              "V" "voltage" None None false false "normal" false)
           (mkDecimal false 0 (-4)) eq_refl eq_refl).
Defined.

(** ** Flags that leave no trace *)

Lemma test_bit_mask (a b mask i : Z) :
  0 <= i -> Z.testbit mask i = true ->
  Z.land a mask = Z.land b mask -> test_bit a i = test_bit b i.
Proof.
  intros Hi Hm Hab. rewrite !test_bit_testbit by lia.
  transitivity (Z.testbit (Z.land a mask) i).
  - rewrite Z.land_spec, Hm. symmetry. apply andb_true_r.
  - rewrite Hab, Z.land_spec, Hm. apply andb_true_r.
Qed.

(** X19. The RMR, PMAX, PMIN, AUTO and LPF flags are decoded but never
    used: two packets that differ only in those five bits decode alike. *)
Theorem unused_flags (r d4 d3 d2 d1 d0 f st o1 o2 o3 o4 o1' o2' o3' o4' : Z) :
  Z.land o1 126 = Z.land o1' 126 ->
  Z.land o2 121 = Z.land o2' 121 ->
  Z.land o3 125 = Z.land o3' 125 ->
  Z.land o4 126 = Z.land o4' 126 ->
  parse [r; d4; d3; d2; d1; d0; f; st; o1; o2; o3; o4]
  = parse [r; d4; d3; d2; d1; d0; f; st; o1'; o2'; o3'; o4'].
Proof.
  intros H1 H2 H3 H4.
  assert (E1 : forall i, 0 <= i -> Z.testbit 126 i = true ->
                 test_bit o1 i = test_bit o1' i)
    by (intros; eapply test_bit_mask; eassumption).
  assert (E2 : forall i, 0 <= i -> Z.testbit 121 i = true ->
                 test_bit o2 i = test_bit o2' i)
    by (intros; eapply test_bit_mask; eassumption).
  assert (E3 : forall i, 0 <= i -> Z.testbit 125 i = true ->
                 test_bit o3 i = test_bit o3' i)
    by (intros; eapply test_bit_mask; eassumption).
  assert (E4 : forall i, 0 <= i -> Z.testbit 126 i = true ->
                 test_bit o4 i = test_bit o4' i)
    by (intros; eapply test_bit_mask; eassumption).
  rewrite !parse_eq.
  destruct (resolve f r) as [[[mode m_range] unit_]|e]; [|reflexivity].
  cbn [bind].
  assert (Hok : templates_ok st o1 o2 o3 o4 = templates_ok st o1' o2' o3' o4').
  { unfold templates_ok.
    rewrite (E1 6), (E1 5), (E1 4) by (lia || reflexivity).
    rewrite (E2 6), (E2 5), (E2 4), (E2 0) by (lia || reflexivity).
    rewrite (E3 6), (E3 5), (E3 4) by (lia || reflexivity).
    rewrite (E4 6), (E4 5), (E4 4), (E4 3) by (lia || reflexivity).
    reflexivity. }
  rewrite Hok. destruct (templates_ok st o1' o2' o3' o4'); [|reflexivity].
  cbn zeta.
  rewrite !(E3 2), !(E3 3) by (lia || reflexivity).
  rewrite !(E1 3), !(E1 2), !(E1 1) by (lia || reflexivity).
  rewrite !(E2 3) by (lia || reflexivity).
  rewrite !(E4 1) by (lia || reflexivity).
  destruct (test_bit o3' 2 && test_bit o3' 3); [reflexivity|].
  rewrite (override_ext (options_of st o1 o2 o3 o4)
             (options_of st o1' o2' o3' o4')).
  2: { change (Some (test_bit o3 0) = Some (test_bit o3' 0)).
       rewrite (E3 0) by (lia || reflexivity). reflexivity. }
  2: reflexivity.
  2: { change (Some (test_bit o4 2) = Some (test_bit o4' 2)).
       rewrite (E4 2) by (lia || reflexivity). reflexivity. }
  destruct (override _ mode m_range unit_) as [[[mode' m_range'] unit']|e];
    [|reflexivity].
  cbn [bind].
  rewrite (assemble_ext (options_of st o1 o2 o3 o4)
             (options_of st o1' o2' o3' o4')) by reflexivity.
  reflexivity.
Qed.

Lemma unused_flags_witness :
  parse [48; 50; 50; 48; 48; 48; 59; 48; 48; 48; 48; 48]
  = parse [48; 50; 50; 48; 48; 48; 59; 48; 49; 54; 50; 49].
Proof.
  exact (unused_flags 48 50 50 48 48 48 59 48 48 48 48 48 49 54 50 49
           eq_refl eq_refl eq_refl eq_refl).
Defined.

(** ** The readable line of a decoded packet *)

(** X20. What [output_readable] makes of a decoded packet: with the BATT
    flag set it raises [AttributeError]; otherwise it returns the underload
    or overload message, or the display value and display unit separated by
    a space. *)
Theorem readable_of_parse (r d4 d3 d2 d1 d0 f st o1 o2 o3 o4 : Z)
    (rd : Reading) (options : gmap string bool) (bt ul ol : bool) :
  parse [r; d4; d3; d2; d1; d0; f; st; o1; o2; o3; o4] = Return rd ->
  decode_options [st; o1; o2; o3; o4] = Return options ->
  options !! "BATT" = Some bt ->
  options !! "UL" = Some ul ->
  options !! "OL" = Some ol ->
  if bt then output_readable rd = Raise AttributeError
  else if ul
  then output_readable rd = Return "-, the measurement is underloaded!"
  else if ol
  then output_readable rd = Return "-, the measurement is overloaded!"
  else exists dv,
         r_display_value rd = Num dv
         /\ output_readable rd
            = Return (str_Decimal dv +:+ " " +:+ r_display_unit rd).
Proof.
  intros H Hdec Hbt Hul Hol.
  apply decode_options_Return_inv in Hdec as [_ ->].
  flag_bit Hbt. flag_bit Hul. flag_bit Hol.
  apply parse_Return_inv in H
    as (mode & m_range & unit_ & mode' & m_range' & unit' & dv & du & v
        & _ & _ & _ & _ & _ & ->).
  unfold output_readable.
  cbn [r_operation r_battery_low r_display_value r_display_unit].
  rewrite Hbt, Hul, Hol.
  destruct bt; [reflexivity|].
  destruct ul; [reflexivity|].
  destruct ol; [reflexivity|].
  exists dv. split; reflexivity.
Qed.

Lemma readable_of_parse_witness :
  exists dv,
    Num (mkDecimal true 5 (-4)) = Num dv
    /\ output_readable
         (mkReading (Num (-0.0005)%float) "V" (Num (mkDecimal true 5 (-4)))
            "V" "voltage" None None false false "normal" false)
       = Return (str_Decimal dv +:+ " " +:+ "V").
Proof.
  exact (readable_of_parse 48 48 48 48 48 53 59 52 48 48 48 48
           (mkReading (Num (-0.0005)%float) "V" (Num (mkDecimal true 5 (-4)))
              "V" "voltage" None None false false "normal" false)
           (options_of 52 48 48 48 48) false false false
           eq_refl eq_refl eq_refl eq_refl eq_refl).
Defined.

(** ** The delimited line *)

Lemma count_char_app (c : Ascii.ascii) (s1 s2 : string) :
  count_char c (s1 +:+ s2) = (count_char c s1 + count_char c s2)%nat.
Proof.
  induction s1 as [|c' s1 IH]; [reflexivity|].
  change (count_char c (String c' (s1 +:+ s2))
          = (count_char c (String c' s1) + count_char c s2)%nat).
  cbn [count_char]. rewrite IH. lia.
Qed.

(** X21. The delimited line of any reading is its nine columns value,
    unit, mode, current, operation, peak, battery_low, relative and hold
    joined by semicolons; the value is written only when the operation is
    "normal", an absent current or peak is empty, and booleans are 1 or 0.
    The display value and the display unit are not written. *)
Theorem output_csv_columns (str_float : float -> string)
    (results : Reading) :
  output_csv str_float results
  = Return (String.concat ";"
              [value_column str_float results;
               r_unit results;
               r_mode results;
               option_column (r_current results);
               r_operation results;
               option_column (r_peak results);
               bool_column (r_battery_low results);
               bool_column (r_relative results);
               bool_column (r_hold results)]).
Proof.
  destruct results as [v u dv du m c p rl hd op bt].
  unfold output_csv, CSV_FIELDS, value_column.
  cbn [map_res r_value r_unit r_mode r_current r_operation r_peak
       r_battery_low r_relative r_hold].
  unfold format_field, getresult.
  cbn [String.eqb Ascii.eqb Bool.eqb bind r_value r_unit r_mode r_current
       r_operation r_peak r_battery_low r_relative r_hold py_eq_str
       py_is_none py_eq_bool py_str].
  destruct (String.eqb op "normal"), v, c, p, bt, rl, hd; reflexivity.
Qed.

Lemma count_char_concat9 (c : Ascii.ascii) (a1 a2 a3 a4 a5 a6 a7 a8 a9 : string) :
  count_char c a1 = 0%nat -> count_char c a2 = 0%nat ->
  count_char c a3 = 0%nat -> count_char c a4 = 0%nat ->
  count_char c a5 = 0%nat -> count_char c a6 = 0%nat ->
  count_char c a7 = 0%nat -> count_char c a8 = 0%nat ->
  count_char c a9 = 0%nat ->
  count_char c (String.concat ";" [a1; a2; a3; a4; a5; a6; a7; a8; a9])
  = (8 * count_char c ";")%nat.
Proof.
  intros H1 H2 H3 H4 H5 H6 H7 H8 H9. cbn [String.concat].
  change String.append with (fun a b => a +:+ b). cbn beta.
  rewrite !count_char_app, H1, H2, H3, H4, H5, H6, H7, H8, H9. lia.
Qed.

(** X22. The delimited line of a decoded packet has exactly nine columns:
    it holds eight semicolons, as none of the modes, units and labels the
    decoder produces contains one (given that the text of a float has
    none). *)
Theorem csv_nine_columns (str_float : float -> string)
    (r d4 d3 d2 d1 d0 f st o1 o2 o3 o4 : Z) (rd : Reading) :
  (forall x : float, count_char ";"%char (str_float x) = 0%nat) ->
  parse [r; d4; d3; d2; d1; d0; f; st; o1; o2; o3; o4] = Return rd ->
  exists line : string,
    output_csv str_float rd = Return line
    /\ count_char ";"%char line = 8%nat.
Proof.
  intros Hf H.
  apply parse_Return_inv in H
    as (mode & m_range & unit_ & mode' & m_range' & unit' & dv & du & v
        & Hres & _ & _ & Hov & _ & ->).
  rewrite output_csv_columns. eexists. split; [reflexivity|].
  cbn [r_value r_unit r_mode r_current r_operation r_peak r_battery_low
       r_relative r_hold].
  assert (Hmu : count_char ";"%char mode' = 0%nat
                /\ count_char ";"%char unit' = 0%nat).
  { unfold options_of in Hov. rewrite override_flag_map in Hov.
    apply resolve_mode_unit in Hres.
    destruct (test_bit o3 0 && negb (test_bit st 3));
      [simplify_eq; split; reflexivity|].
    destruct ((test_bit o3 0 || String.eqb mode "frequency")
              && test_bit st 3); [simplify_eq; split; reflexivity|].
    assert (Heq : mode' = mode /\ unit' = unit_)
      by (destruct (String.eqb mode "temperature"); simplify_eq; auto).
    destruct Heq as [-> ->].
    repeat (apply elem_of_cons in Hres as [Hres|Hres];
            [simplify_eq; split; reflexivity|]).
    apply elem_of_nil in Hres. destruct Hres. }
  destruct Hmu as [Hm Hu].
  rewrite count_char_concat9; [reflexivity| | | | | | | | |];
    try assumption.
  - unfold value_column. cbn [r_operation r_value].
    destruct (test_bit o2 3), (test_bit st 0);
      cbn [orb String.eqb Ascii.eqb Bool.eqb]; try reflexivity.
    apply Hf.
  - destruct (test_bit o3 3), (test_bit o3 2); reflexivity.
  - destruct (test_bit o2 3), (test_bit st 0); reflexivity.
  - destruct (test_bit o1 3), (test_bit o1 2); reflexivity.
  - destruct (test_bit st 1); reflexivity.
  - destruct (test_bit o1 1); reflexivity.
  - destruct (test_bit o4 1); reflexivity.
Qed.

Lemma csv_nine_columns_witness :
  exists line : string,
    output_csv (fun _ => "2.2")
      (mkReading (Num 2.2%float) "V" (Num (mkDecimal false 22000 (-4)))
         "V" "voltage" None None false false "normal" false)
    = Return line
    /\ count_char ";"%char line = 8%nat.
Proof.
  apply (csv_nine_columns (fun _ => "2.2") 48 50 50 48 48 48 59
           48 48 48 48 48);
    [intros x; reflexivity|reflexivity].
Defined.

(** ** The bytes of a decodable packet *)

Lemma land_127_range (b : Z) : 0 <= Z.land b 127 < 128.
Proof.
  change 127 with (Z.ones 7). rewrite Z.land_ones by lia.
  apply Z.mod_pos_bound. lia.
Qed.

Lemma test_bit_land_127 (b i : Z) :
  0 <= i < 7 -> test_bit (Z.land b 127) i = test_bit b i.
Proof.
  intros Hi. apply test_bit_low7; [exact Hi|].
  rewrite <- Z.land_assoc. reflexivity.
Qed.

(** The low seven bits with the fixed prefix 0,1,1 form a value 48..63;
    checked on each of the 128 values. *)
Lemma framing_bits_range (b : Z) :
  test_bit b 6 = false -> test_bit b 5 = true -> test_bit b 4 = true ->
  48 <= Z.land b 127 <= 63.
Proof.
  intros H6 H5 H4.
  rewrite <- (test_bit_land_127 b 6) in H6 by lia.
  rewrite <- (test_bit_land_127 b 5) in H5 by lia.
  rewrite <- (test_bit_land_127 b 4) in H4 by lia.
  pose proof (land_127_range b) as Hx.
  set (x := Z.land b 127) in *.
  assert (Hall :
    forallb (fun x => implb (negb (test_bit x 6) && test_bit x 5
                             && test_bit x 4)
                        ((48 <=? x) && (x <=? 63)))
      (seqZ 0 128) = true) by reflexivity.
  rewrite forallb_forall in Hall.
  specialize (Hall x). rewrite H6, H5, H4 in Hall. cbn [negb andb implb] in Hall.
  assert (Hin : In x (seqZ 0 128))
    by (apply list_elem_of_In, elem_of_seqZ; lia).
  apply Hall in Hin. apply andb_true_iff in Hin as [Hlo Hhi].
  apply Z.leb_le in Hlo. apply Z.leb_le in Hhi. lia.
Qed.

(** X23. Every byte of a decodable packet lies in 48..63: the range byte
    in 48..55, the digit bytes in 48..57, the function byte in 48..63, and
    the low seven bits of each flag byte in 48..63. *)
Theorem decodable_bytes (r d4 d3 d2 d1 d0 f st o1 o2 o3 o4 : Z)
    (rd : Reading) :
  parse [r; d4; d3; d2; d1; d0; f; st; o1; o2; o3; o4] = Return rd ->
  48 <= r <= 55
  /\ Forall (fun b => 48 <= b <= 57) [d4; d3; d2; d1; d0]
  /\ 48 <= f <= 63
  /\ Forall (fun b => 48 <= Z.land b 127 <= 63) [st; o1; o2; o3; o4].
Proof.
  intros H.
  apply parse_Return_inv in H
    as (mode & m_range & unit_ & mode' & m_range' & unit' & dv & du & v
        & Hres & Hok & _ & _ & Has & _).
  assert (Hfr : 48 <= f <= 63 /\ 48 <= r <= 55).
  { apply resolve_Return_inv in Hres as (table & Hf & Hr).
    unfold FUNCTION in Hf.
    table_entries Hf ltac:(range_entries Hr ltac:(lia)). }
  split; [apply Hfr|]. split.
  { unfold assemble in Has.
    destruct (map_res (getitem DIGITS) [d4; d3; d2; d1; d0]) as [ds|e] eqn:Hd;
      [|discriminate].
    exact (proj1 (map_res_DIGITS_Return_inv _ _ Hd)). }
  split; [apply Hfr|].
  unfold templates_ok in Hok.
  repeat match type of Hok with
  | _ && _ = true => apply andb_true_iff in Hok as [Hok ?]
  end.
  repeat match goal with
  | H : _ && _ = true |- _ => apply andb_true_iff in H as [H ?]
  end.
  repeat match goal with
  | H : negb _ = true |- _ => apply negb_true_iff in H
  end.
  repeat constructor; apply framing_bits_range; assumption.
Qed.

Lemma decodable_bytes_witness :
  48 <= 48 <= 55
  /\ Forall (fun b => 48 <= b <= 57) [50; 50; 48; 48; 48]
  /\ 48 <= 59 <= 63
  /\ Forall (fun b => 48 <= Z.land b 127 <= 63) [176; 48; 48; 48; 48].
Proof.
  exact (decodable_bytes 48 50 50 48 48 48 59 176 48 48 48 48
           (mkReading (Num 2.2%float) "V" (Num (mkDecimal false 22000 (-4)))
              "V" "voltage" None None false false "normal" false)
           eq_refl).
Defined.

(** X24. The function and range bytes resolve to a label in ADP mode only,
    and then to one of the five ADP labels: every other mode, the current
    modes included, resolves to a numeric triple, so the labels of
    [RANGE_CURRENT_AUTO] are never met. *)
Theorem labels_only_in_adp (f r : Z) (mode : string) (s : string)
    (unit_ : string) :
  resolve f r = Return (mode, Label s, unit_) ->
  f = 62 /\ mode = "ADP" /\ unit_ = ""
  /\ s ∈ ["ADP4"; "ADP3"; "ADP2"; "ADP1"; "ADP0"].
Proof.
  intros H. apply resolve_Return_inv in H as (table & Hf & Hr).
  unfold FUNCTION in Hf.
  table_entries Hf
    ltac:(range_entries Hr
            ltac:(repeat split; apply (bool_decide_unpack _); reflexivity)).
Qed.

Lemma labels_only_in_adp_witness :
  62 = 62 /\ "ADP" = "ADP" /\ "" = ""
  /\ "ADP2" ∈ ["ADP4"; "ADP3"; "ADP2"; "ADP1"; "ADP0"].
Proof.
  exact (labels_only_in_adp 62 50 "ADP" "ADP2" "" eq_refl).
Defined.
